(** * Blogicum: the blog views and their visibility rules

    A shallow embedding of [blogicum/blog/views.py] (with the forms of
    [blogicum/blog/forms.py]).  The database behind Django's ORM is an
    explicit [Store] of tables, every view is a function from a request,
    the clock readings it takes and the store to a response and the store
    it leaves behind. *)

From Stdlib Require Import ZArith List String Bool Lia Sorted Permutation.
Import ListNotations.
Local Open Scope Z_scope.
Local Open Scope bool_scope.

Set Implicit Arguments.

(** ** Data model *)

Module Model.

(** [django.contrib.auth]'s user: primary key, user name, staff flag. *)
Record User := mkUser {
  user_pk : Z;
  username : string;
  is_staff : bool
}.

(** [request.user]: Django's [AnonymousUser] or a logged-in [User]. *)
Inductive RequestUser :=
| AnonymousUser
| AuthUser (u : User).

(** Modelled from the spec: [models.py] (class [Category]) is not part of
    the sources at hand; the fields are those of the data model of the
    specification and of [admin.py]. *)
Record Category := mkCategory {
  category_pk : Z;
  slug : string;
  category_title : string;
  category_is_published : bool
}.

(** Modelled from the spec: [models.py] (class [Post]) is not part of the
    sources at hand; the fields are the ones [PostForm] lists, the author
    and the primary key.  [author] holds the primary key of the author,
    [category] is the related object the ORM hands to the view ([None]
    for a post without category), [location] and [image] are opaque
    references. *)
Record Post := mkPost {
  post_pk : Z;
  author : Z;
  category : option Category;
  location : option Z;
  title : string;
  text : string;
  image : option string;
  pub_date : Z;
  is_published : bool
}.

(** Modelled from the spec: [models.py] (class [Comment]) is not part of
    the sources at hand; the fields are those of the data model of the
    specification, and the [is_published] attribute that [edit_comment]
    assigns. *)
Record Comment := mkComment {
  comment_pk : Z;
  comment_post : Z;
  comment_author : Z;
  comment_text : string;
  created_at : Z;
  comment_is_published : bool
}.

(** The tables of the database. *)
Record Store := mkStore {
  users : list User;
  categories : list Category;
  posts : list Post;
  comments : list Comment
}.

End Model.
Export Model.

(** ** The object-relational layer

    What the views use of Django's ORM and paginator, over the tables of
    a [Store]. *)

Module Orm.

(** The three outcomes of [QuerySet.get]. *)
Inductive GetResult (A : Type) :=
| DoesNotExist
| MultipleObjectsReturned
| Got (a : A).
Arguments DoesNotExist {A}.
Arguments MultipleObjectsReturned {A}.

(** [Model.objects.get] under the lookups [cond] *)
Definition get {A : Type} (cond : A -> bool) (table : list A) : GetResult A :=
  match filter cond table with
  | [] => DoesNotExist
  | [a] => Got a
  | _ :: _ :: _ => MultipleObjectsReturned
  end.

(** The keyword lookups the views pass to [filter]. *)

(** [category__is_published=True]: the join drops a post without
    category. *)
Definition category__is_published (post : Post) : bool :=
  match category post with
  | None => false
  | Some c => category_is_published c
  end.

(** [pub_date__lte=t] *)
Definition pub_date__lte (t : Z) (post : Post) : bool :=
  pub_date post <=? t.

(** [category=c]: the foreign key equals the primary key of [c]. *)
Definition category_eq (c : Category) (post : Post) : bool :=
  match category post with
  | None => false
  | Some c' => category_pk c' =? category_pk c
  end.

(** [author=u] *)
Definition author_eq (u : User) (post : Post) : bool :=
  author post =? user_pk u.

(** [order_by('-pub_date')], as a stable insertion sort; the database
    fixes no order among posts of equal [pub_date]. *)
Fixpoint insert_by_pub_date (p : Post) (l : list Post) : list Post :=
  match l with
  | [] => [p]
  | q :: l' =>
      if pub_date q <=? pub_date p then p :: q :: l'
      else q :: insert_by_pub_date p l'
  end.

Fixpoint order_by_pub_date_desc (l : list Post) : list Post :=
  match l with
  | [] => []
  | p :: l' => insert_by_pub_date p (order_by_pub_date_desc l')
  end.

(** [django.core.paginator.Page]: the items of the page, its number, and
    the whole sequence its paginator was built on. *)
Record Page (A : Type) := mkPage {
  object_list : list A;
  number : Z;
  paginator_object_list : list A
}.

(** [Paginator.num_pages], with the defaults [orphans=0] and
    [allow_empty_first_page=True]. *)
Definition num_pages {A : Type} (queryset : list A) (per_page : Z) : Z :=
  let hits := Z.max 1 (Z.of_nat (List.length queryset)) in
  (hits + per_page - 1) / per_page.

(** [Paginator.get_page(number)]: [number] is [None] when the parameter
    is absent or not an integer (first page); a number out of range
    gives the last page. *)
Definition get_page {A : Type} (queryset : list A) (per_page : Z)
    (page_number : option Z) : Page A :=
  let last := num_pages queryset per_page in
  let n :=
    match page_number with
    | None => 1
    | Some n => if (n <? 1) || (last <? n) then last else n
    end in
  let count := Z.of_nat (List.length queryset) in
  let bottom := (n - 1) * per_page in
  let top := if count <=? bottom + per_page then count else bottom + per_page in
  {| object_list := firstn (Z.to_nat (top - bottom)) (skipn (Z.to_nat bottom) queryset);
     number := n;
     paginator_object_list := queryset |}.

End Orm.
Export Orm.

(** ** Requests and responses *)

Module Http.

Inductive Method := GET | POST | OtherMethod.

Definition is_POST (m : Method) : bool :=
  match m with
  | POST => true
  | _ => false
  end.

(** The cleaned data of [PostForm] (forms.py, 27-38). *)
Record PostFormData := mkPostFormData {
  form_category : option Category;
  form_location : option Z;
  form_title : string;
  form_text : string;
  form_image : option string;
  form_pub_date : option Z;
  form_is_published : bool
}.

(** The cleaned data of [CommentForm] (forms.py, 41-47): the text. *)
Record CommentFormData := mkCommentFormData {
  form_comment_text : string
}.

(** What the request submits to a form: [Valid d] when
    [form.is_valid()] holds, with cleaned data [d]. *)
Inductive Submission (A : Type) :=
| Invalid
| Valid (cleaned_data : A).
Arguments Invalid {A}.

Record HttpRequest := mkRequest {
  method : Method;
  user : RequestUser;
  (** [request.GET.get('page')], read as an integer *)
  GET_page : option Z;
  POST_post_form : Submission PostFormData;
  POST_comment_form : Submission CommentFormData
}.

(** A form as a template receives it: unbound (empty or showing an
    instance), or shown again after a submission that did not validate. *)
Inductive Form (A : Type) :=
| UnboundForm (instance : option A)
| RejectedForm (instance : option A).

Inductive Route :=
| LoginRoute
| ProfileRoute (name : string)
| PostDetailRoute (post_id : Z).

Inductive Context :=
| IndexContext (page_obj : Page Post)
| DetailContext (post : Post) (post_comments : list Comment)
    (form : Form Comment) (now : Z)
| CategoryContext (category : Category) (page_obj : Page Post)
| ProfileContext (profile : User) (page_obj : Page Post)
| PostFormContext (form : Form Post)
| PostDeleteContext (post : Post)
| CommentFormContext (form : Form Comment) (comment : Comment) (post : Z)
| CommentDeleteContext (comment : Comment) (post : Z).

Inductive Response :=
| Render (template : string) (context : Context)
| Redirect (to : Route)
| HttpResponseForbidden
| Http404
| ServerError (exception : string).

End Http.
Export Http.

(** ** The views (views.py) *)

Module Views.

Definition PAGE : Z := 10.

(** [filter_posts] (views.py, 16-20); [select_related] only
    loads the related objects, which a [Post] here already carries. *)
Definition filter_posts (kwargs : Post -> bool) (db : Store) : list Post :=
  order_by_pub_date_desc (filter kwargs (posts db)).

(** [paginated_view] (views.py, 23-28) *)
Definition paginated_view {A : Type} (request : HttpRequest)
    (queryset : list A) (items_per_page : Z) : Page A :=
  get_page queryset items_per_page (GET_page request).

(** [get_object_or_404]: [DoesNotExist] becomes [Http404], nothing
    catches [MultipleObjectsReturned]. *)
Definition get_object_or_404 {A : Type} (cond : A -> bool) (table : list A)
    : Response + A :=
  match get cond table with
  | DoesNotExist => inl Http404
  | MultipleObjectsReturned => inl (ServerError "MultipleObjectsReturned")
  | Got a => inr a
  end.

(** [@login_required]: an anonymous request is sent to the login page
    and the view is not run. *)
Definition login_required (request : HttpRequest) (db : Store)
    (view : User -> Response * Store) : Response * Store :=
  match user request with
  | AnonymousUser => (Redirect LoginRoute, db)
  | AuthUser u => view u
  end.

(** The queryset [all_posts] of [index] (views.py, 33-37). *)
Definition all_posts (now : Z) (db : Store) : list Post :=
  filter_posts
    (fun p => is_published p && category__is_published p && pub_date__lte now p)
    db.

(** [index] (views.py, 31-44) *)
Definition index (request : HttpRequest) (now : Z) (db : Store) : Response :=
  let page_obj := paginated_view request (all_posts now db) PAGE in
  Render "blog/index.html" (IndexContext page_obj).
(** [request.user.is_authenticated] *)
Definition is_authenticated (user : RequestUser) : bool :=
  match user with
  | AnonymousUser => false
  | AuthUser _ => true
  end.

(** [request.user.is_staff]; [AnonymousUser.is_staff] is [False]. *)
Definition user_is_staff (user : RequestUser) : bool :=
  match user with
  | AnonymousUser => false
  | AuthUser u => is_staff u
  end.

(** [owner == request.user] for a stored user reference [owner]: model
    instances are equal when their primary keys are, and no model
    instance equals [AnonymousUser]. *)
Definition author_is (owner : Z) (user : RequestUser) : bool :=
  match user with
  | AnonymousUser => false
  | AuthUser u => owner =? user_pk u
  end.

(** [post.category is None or post.category.is_published] *)
Definition category_allows (post : Post) : bool :=
  match category post with
  | None => true
  | Some c => category_is_published c
  end.

(** The [can_view] flag computed by [post_detail] (views.py, 52-60). *)
Definition can_view (post : Post) (user : RequestUser) (now : Z) : bool :=
  if is_published post && (pub_date post <=? now) && category_allows post
  then true
  else if is_authenticated user && author_is (author post) user
  then true
  else if is_authenticated user && user_is_staff user
  then true
  else false.

(** The [can_view_post] flag computed for each post by the loop of
    [category_posts] (views.py, 95-107). *)
Definition can_view_post (post : Post) (user : RequestUser) (now : Z) : bool :=
  if is_published post && (pub_date post <=? now) && category_allows post
  then true
  else if is_authenticated user && author_is (author post) user
  then true
  else if is_authenticated user && user_is_staff user
  then true
  else false.

(** [post.comments.all()]: the comments whose [post] is this post, in
    the order of the table. *)
Definition post_comments (post : Post) (db : Store) : list Comment :=
  filter (fun c => comment_post c =? post_pk post) (comments db).

(** [post_detail] (views.py, 47-76) *)
Definition post_detail (request : HttpRequest) (post_id : Z) (now : Z)
    (db : Store) : Response :=
  match get_object_or_404 (fun p => post_pk p =? post_id) (posts db) with
  | inl raised => raised
  | inr post =>
      if negb (can_view post (user request) now) then Http404
      else
        Render "blog/detail.html"
          (DetailContext post (post_comments post db) (UnboundForm None) now)
  end.

(** The queryset [all_category_posts] of [category_posts] (views.py,
    87-91); [now_query] is the clock reading taken for the query. *)
Definition all_category_posts (category : Category) (now_query : Z)
    (db : Store) : list Post :=
  filter_posts
    (fun p => is_published p && pub_date__lte now_query p && category_eq category p)
    db.

(** The loop that fills [visible_posts] (views.py, 93-110). *)
Definition visible_posts (candidates : list Post) (viewer : RequestUser)
    (now : Z) : list Post :=
  fold_left
    (fun visible post =>
       if can_view_post post viewer now then visible ++ [post] else visible)
    candidates [].

(** [category_posts] (views.py, 79-118); the view reads the clock twice,
    [now] for the loop and then [now_query] for the query. *)
Definition category_posts (request : HttpRequest) (category_slug : string)
    (now now_query : Z) (db : Store) : Response :=
  match
    get_object_or_404
      (fun c => (slug c =? category_slug)%string && category_is_published c)
      (categories db)
  with
  | inl raised => raised
  | inr category =>
      let visible :=
        visible_posts (all_category_posts category now_query db)
          (user request) now in
      let page_obj := paginated_view request visible PAGE in
      Render "blog/category.html" (CategoryContext category page_obj)
  end.

(** The queryset [posts] of [profile_view] (views.py, 141). *)
Definition profile_posts (user_obj : User) (db : Store) : list Post :=
  filter (author_eq user_obj) (posts db).

(** [profile_view] (views.py, 138-146) *)
Definition profile_view (request : HttpRequest) (name : string)
    (db : Store) : Response :=
  match get_object_or_404 (fun u => (username u =? name)%string) (users db) with
  | inl raised => raised
  | inr user_obj =>
      let page_obj := paginated_view request (profile_posts user_obj db) PAGE in
      Render "blog/profile.html" (ProfileContext user_obj page_obj)
  end.

(** The primary key the database gives a new row: beyond all keys in
    the table. *)
Definition next_pk (pks : list Z) : Z :=
  1 + fold_right Z.max 0 pks.

(** [post.save()] of a new post: one more row. *)
Definition insert_post (post : Post) (db : Store) : Store :=
  {| users := users db;
     categories := categories db;
     posts := posts db ++ [post];
     comments := comments db |}.

(** [post.save()] of a stored post: the row of that key is rewritten. *)
Definition update_post (post : Post) (db : Store) : Store :=
  {| users := users db;
     categories := categories db;
     posts := map (fun p => if post_pk p =? post_pk post then post else p)
                (posts db);
     comments := comments db |}.

(** [post.delete()].  Modelled from the spec: [models.py] is not part of
    the sources at hand; a comment of the specification always refers to
    a post, so the comments of a deleted post go with it. *)
Definition delete_post_row (post : Post) (db : Store) : Store :=
  {| users := users db;
     categories := categories db;
     posts := filter (fun p => negb (post_pk p =? post_pk post)) (posts db);
     comments := filter (fun c => negb (comment_post c =? post_pk post))
                   (comments db) |}.

(** [comment.save()] of a stored comment. *)
Definition update_comment (comment : Comment) (db : Store) : Store :=
  {| users := users db;
     categories := categories db;
     posts := posts db;
     comments :=
       map (fun c => if comment_pk c =? comment_pk comment then comment else c)
         (comments db) |}.

(** [comment.delete()] *)
Definition delete_comment_row (comment : Comment) (db : Store) : Store :=
  {| users := users db;
     categories := categories db;
     posts := posts db;
     comments :=
       filter (fun c => negb (comment_pk c =? comment_pk comment)) (comments db) |}.

(** [create_post] (views.py, 167-185); [now] is read when the form gave
    no [pub_date]. *)
Definition create_post (request : HttpRequest) (now : Z) (db : Store)
    : Response * Store :=
  login_required request db (fun u =>
    if is_POST (method request) then
      match POST_post_form request with
      | Valid d =>
          let post :=
            {| post_pk := next_pk (map post_pk (posts db));
               author := user_pk u;
               category := form_category d;
               location := form_location d;
               title := form_title d;
               text := form_text d;
               image := form_image d;
               pub_date :=
                 match form_pub_date d with
                 | Some t => t
                 | None => now
                 end;
               is_published := true |} in
          (Redirect (ProfileRoute (username u)), insert_post post db)
      | Invalid =>
          (Render "blog/create.html" (PostFormContext (RejectedForm None)), db)
      end
    else
      (Render "blog/create.html" (PostFormContext (UnboundForm None)), db)).

(** [edit_post] (views.py, 188-202).  [form.save()] writes the cleaned
    data onto the stored post and saves it.  Modelled from the spec:
    [models.py] is not part of the sources at hand; the [pub_date] of the
    specification is a timestamp, so the database refuses a post saved
    without one. *)
Definition edit_post (request : HttpRequest) (post_id : Z) (db : Store)
    : Response * Store :=
  login_required request db (fun u =>
    match get_object_or_404 (fun p => post_pk p =? post_id) (posts db) with
    | inl raised => (raised, db)
    | inr post =>
        if negb (author_is (author post) (user request)) then
          (Redirect (PostDetailRoute (post_pk post)), db)
        else if is_POST (method request) then
          match POST_post_form request with
          | Valid d =>
              match form_pub_date d with
              | Some t =>
                  let saved_post :=
                    {| post_pk := post_pk post;
                       author := author post;
                       category := form_category d;
                       location := form_location d;
                       title := form_title d;
                       text := form_text d;
                       image := form_image d;
                       pub_date := t;
                       is_published := form_is_published d |} in
                  (Redirect (PostDetailRoute (post_pk saved_post)),
                   update_post saved_post db)
              | None => (ServerError "IntegrityError", db)
              end
          | Invalid =>
              (Render "blog/create.html"
                 (PostFormContext (RejectedForm (Some post))), db)
          end
        else
          (Render "blog/create.html"
             (PostFormContext (UnboundForm (Some post))), db)
    end).

(** [delete_post] (views.py, 205-219) *)
Definition delete_post (request : HttpRequest) (post_id : Z) (db : Store)
    : Response * Store :=
  login_required request db (fun u =>
    match get_object_or_404 (fun p => post_pk p =? post_id) (posts db) with
    | inl raised => (raised, db)
    | inr post =>
        if negb (author_is (author post) (user request)) then
          (Redirect (PostDetailRoute (post_pk post)), db)
        else if is_POST (method request) then
          (Redirect (ProfileRoute (username u)), delete_post_row post db)
        else
          (Render "blog/create.html" (PostDeleteContext post), db)
    end).

(** The lookup [pk=comment_id, post__pk=post_id] of the comment views. *)
Definition comment_lookup (post_id comment_id : Z) (c : Comment) : bool :=
  (comment_pk c =? comment_id) && (comment_post c =? post_id).

(** [edit_comment] (views.py, 246-268) *)
Definition edit_comment (request : HttpRequest) (post_id comment_id : Z)
    (db : Store) : Response * Store :=
  login_required request db (fun u =>
    match get_object_or_404 (comment_lookup post_id comment_id) (comments db) with
    | inl raised => (raised, db)
    | inr comment =>
        if negb (author_is (comment_author comment) (user request)) then
          (HttpResponseForbidden, db)
        else if is_POST (method request) then
          match POST_comment_form request with
          | Valid d =>
              let comment :=
                {| comment_pk := comment_pk comment;
                   comment_post := comment_post comment;
                   comment_author := comment_author comment;
                   comment_text := form_comment_text d;
                   created_at := created_at comment;
                   comment_is_published := true |} in
              (Redirect (PostDetailRoute post_id), update_comment comment db)
          | Invalid =>
              (Render "blog/comment.html"
                 (CommentFormContext (RejectedForm (Some comment)) comment
                    (comment_post comment)), db)
          end
        else
          (Render "blog/comment.html"
             (CommentFormContext (UnboundForm (Some comment)) comment
                (comment_post comment)), db)
    end).

(** [delete_comment] (views.py, 271-286) *)
Definition delete_comment (request : HttpRequest) (post_id comment_id : Z)
    (db : Store) : Response * Store :=
  login_required request db (fun u =>
    match get_object_or_404 (comment_lookup post_id comment_id) (comments db) with
    | inl raised => (raised, db)
    | inr comment =>
        if negb (author_is (comment_author comment) (user request)) then
          (HttpResponseForbidden, db)
        else if is_POST (method request) then
          (Redirect (PostDetailRoute post_id), delete_comment_row comment db)
        else
          (Render "blog/comment.html"
             (CommentDeleteContext comment (comment_post comment)), db)
    end).

End Views.
Export Views.

(** ** Notions the properties are stated with *)

Module Spec.

(** The publication gate on its own. *)
Definition publicly_visible (post : Post) (now : Z) : Prop :=
  is_published post = true /\
  pub_date post <= now /\
  (category post = None \/
   exists c, category post = Some c /\ category_is_published c = true).

(** [sub] keeps some of the elements of a sequence, in their order. *)
Inductive subsequence {A : Type} : list A -> list A -> Prop :=
| subsequence_nil : subsequence [] []
| subsequence_skip x sub l : subsequence sub l -> subsequence sub (x :: l)
| subsequence_keep x sub l : subsequence sub l -> subsequence (x :: sub) (x :: l).

(** The sequence a listing view hands to the paginator, read off the
    page in its response. *)
Definition assembled_sequence (response : Response) : option (list Post) :=
  match response with
  | Render _ (IndexContext page_obj) => Some (paginator_object_list page_obj)
  | Render _ (CategoryContext _ page_obj) => Some (paginator_object_list page_obj)
  | Render _ (ProfileContext _ page_obj) => Some (paginator_object_list page_obj)
  | _ => None
  end.


(** The comments a response of [post_detail] shows. *)
Definition shown_comments (response : Response) : option (list Comment) :=
  match response with
  | Render _ (DetailContext _ post_comments _ _) => Some post_comments
  | _ => None
  end.

End Spec.
Export Spec.

(** ** Adding a comment *)

Module CommentViews.

(** The context [{'post': post, 'form': form}] that [add_comment] gives
    to [blog/comment.html]. *)
Record AddCommentContext := mkAddCommentContext {
  commented_post : Post;
  comment_form : Form Comment
}.

(** What [add_comment] answers: one of the responses of the other views,
    or its own page. *)
Inductive AddCommentResponse :=
| Answer (response : Response)
| RenderAddComment (template : string) (context : AddCommentContext).

(** [comment.save()] of a new comment: one more row. *)
Definition insert_comment (comment : Comment) (db : Store) : Store :=
  {| users := users db;
     categories := categories db;
     posts := posts db;
     comments := comments db ++ [comment] |}.

(** [add_comment] (views.py, 223-243), under [@login_required].  The view
    sets the post and the author of the new comment and the form its
    text; [models.py] is not part of the sources at hand, so the values
    the model gives the remaining fields ([created], [published]) are
    parameters. *)
Definition add_comment (request : HttpRequest) (post_id : Z)
    (created : Z) (published : bool) (db : Store)
    : AddCommentResponse * Store :=
  match user request with
  | AnonymousUser => (Answer (Redirect LoginRoute), db)
  | AuthUser u =>
      match get_object_or_404 (fun p => post_pk p =? post_id) (posts db) with
      | inl raised => (Answer raised, db)
      | inr post =>
          if is_POST (method request) then
            match POST_comment_form request with
            | Valid d =>
                let comment :=
                  {| comment_pk := next_pk (map comment_pk (comments db));
                     comment_post := post_pk post;
                     comment_author := user_pk u;
                     comment_text := form_comment_text d;
                     created_at := created;
                     comment_is_published := published |} in
                (Answer (Redirect (PostDetailRoute (post_pk post))),
                 insert_comment comment db)
            | Invalid =>
                (RenderAddComment "blog/comment.html"
                   (mkAddCommentContext post (RejectedForm None)), db)
            end
          else
            (RenderAddComment "blog/comment.html"
               (mkAddCommentContext post (UnboundForm None)), db)
      end
  end.

End CommentViews.
Export CommentViews.

(** ** Invariants of the store and of the listings *)

Module Invariants.

(** Newest first: no post is followed by one of a later [pub_date]. *)
Definition newest_first (l : list Post) : Prop :=
  StronglySorted (fun p q => pub_date q <= pub_date p) l.

(** The primary keys of the posts and of the comments are unique. *)
Definition keys_unique (db : Store) : Prop :=
  NoDup (map post_pk (posts db)) /\ NoDup (map comment_pk (comments db)).

(** The category a post carries is the row of the category table: the
    keys of the table are unique and the related object is in it. *)
Definition categories_consistent (db : Store) : Prop :=
  NoDup (map category_pk (categories db)) /\
  forall p c, In p (posts db) -> category p = Some c -> In c (categories db).

(** The keys a lookup can be made with: the database holds signed 64-bit
    integers, and a lookup with a key outside them fails with an error
    before any row is compared. *)
Definition key_in_range (k : Z) : Prop :=
  - 2 ^ 63 <= k < 2 ^ 63.

(** The items of the page a listing view renders. *)
Definition shown_page (response : Response) : option (list Post) :=
  match response with
  | Render _ (IndexContext page_obj) => Some (object_list page_obj)
  | Render _ (CategoryContext _ page_obj) => Some (object_list page_obj)
  | Render _ (ProfileContext _ page_obj) => Some (object_list page_obj)
  | _ => None
  end.

(** The request for page [n] of the same listing. *)
Definition with_page (request : HttpRequest) (n : Z) : HttpRequest :=
  {| method := method request;
     user := user request;
     GET_page := Some n;
     POST_post_form := POST_post_form request;
     POST_comment_form := POST_comment_form request |}.

(** The pages 1 to [num_pages] of a listing, one after the other. *)
Definition all_pages {A : Type} (request : HttpRequest) (queryset : list A)
    : list (list A) :=
  map (fun n => object_list
                  (paginated_view (with_page request (Z.of_nat n)) queryset PAGE))
    (seq 1 (Z.to_nat (num_pages queryset PAGE))).

End Invariants.
Export Invariants.

(** ** A small blog, for examples *)

Module Scenario.

Definition alice : User := mkUser 7 "alice" false.
Definition bob : User := mkUser 2 "bob" false.
Definition admin : User := mkUser 3 "admin" true.

Definition travel : Category := mkCategory 1 "travel" "Travel" true.
Definition secret : Category := mkCategory 2 "secret" "Secret" false.

(** An unpublished post of alice. *)
Definition draft : Post :=
  mkPost 1 7 (Some travel) None "Draft" "not yet" None 100 false.

(** A published post of alice, older than the draft. *)
Definition story : Post :=
  mkPost 2 7 (Some travel) None "Story" "once upon a time" None 50 true.

(** A published post of bob without category. *)
Definition note : Post :=
  mkPost 3 2 None None "Note" "short" None 60 true.

Definition praise : Comment := mkComment 1 1 2 "nice" 110 true.
Definition rant : Comment := mkComment 2 1 3 "meh" 120 false.
Definition reply : Comment := mkComment 3 2 7 "thanks" 130 true.

Definition blog : Store :=
  mkStore [alice; bob; admin] [travel; secret] [draft; story; note]
    [praise; rant; reply].

(** A post form that asks for an unpublished post and gives no date. *)
Definition new_post_form : PostFormData :=
  mkPostFormData (Some travel) None "New" "fresh" None None false.

(** A request of the given method and user, submitting that post form
    and a comment form, both valid. *)
Definition request_of (m : Method) (viewer : RequestUser) : HttpRequest :=
  mkRequest m viewer None (Valid new_post_form)
    (Valid (mkCommentFormData "edited")).

End Scenario.

(** * Properties *)

Unset Implicit Arguments.

(** ** The visibility decision *)

Module VisibilityFacts.

Lemma category_allows_spec (post : Post) :
  category_allows post = true <->
  (category post = None \/
   exists c, category post = Some c /\ category_is_published c = true).
Proof.
  unfold category_allows.
  destruct (category post) as [c|].
  - split.
    + intros H. right. exists c. split; [reflexivity | exact H].
    + intros [H | [c' [E H]]]; [discriminate | ].
      injection E as ->. exact H.
  - split; [intros _; left; reflexivity | reflexivity].
Qed.

Lemma public_gate_spec (post : Post) (now : Z) :
  is_published post && (pub_date post <=? now) && category_allows post = true
  <-> publicly_visible post now.
Proof.
  unfold publicly_visible.
  rewrite !andb_true_iff, Z.leb_le, category_allows_spec. tauto.
Qed.

Lemma can_view_cases (post : Post) (user : RequestUser) (now : Z) :
  can_view post user now =
  (is_published post && (pub_date post <=? now) && category_allows post)
  || author_is (author post) user
  || user_is_staff user.
Proof.
  unfold can_view.
  destruct (is_published post && (pub_date post <=? now) && category_allows post);
    [reflexivity | ].
  destruct user as [|u]; simpl; [reflexivity | ].
  destruct (author post =? user_pk u); simpl; [reflexivity | ].
  destruct (is_staff u); reflexivity.
Qed.

(** C1: the flag computed by [post_detail] is true exactly when the viewer
    is the logged-in author, or a logged-in staff member, or the post
    passes the publication gate (published, not future-dated, category
    absent or published); so an author or a staff member sees the post
    whatever its flag, its date and its category are. *)
Theorem can_view_iff :
  (forall post viewer now,
      can_view post viewer now = true <->
      (exists u, viewer = AuthUser u /\ user_pk u = author post) \/
      (exists u, viewer = AuthUser u /\ is_staff u = true) \/
      publicly_visible post now) /\
  (forall post u now,
      user_pk u = author post \/ is_staff u = true ->
      can_view post (AuthUser u) now = true).
Proof.
  assert (main : forall post viewer now,
      can_view post viewer now = true <->
      (exists u, viewer = AuthUser u /\ user_pk u = author post) \/
      (exists u, viewer = AuthUser u /\ is_staff u = true) \/
      publicly_visible post now).
  { intros post viewer now.
    rewrite can_view_cases, !orb_true_iff, public_gate_spec.
    destruct viewer as [|u]; simpl.
    - split.
      + intros [[H | H] | H]; try discriminate. right; right; exact H.
      + intros [[u [E _]] | [[u [E _]] | H]]; try discriminate.
        left; left; exact H.
    - rewrite Z.eqb_eq. split.
      + intros [[H | H] | H].
        * right; right; exact H.
        * left. exists u. split; [reflexivity | symmetry; exact H].
        * right; left. exists u. split; [reflexivity | exact H].
      + intros [[u' [E H]] | [[u' [E H]] | H]].
        * injection E as <-. left; right. symmetry; exact H.
        * injection E as <-. right. exact H.
        * left; left; exact H. }
  split; [exact main | ].
  intros post u now H. apply main.
  destruct H as [H | H].
  - left. exists u. split; [reflexivity | exact H].
  - right; left. exists u. split; [reflexivity | exact H].
Qed.

(** C3: the flag of [post_detail] and the flag of the loop of
    [category_posts] are the same function of the post, the viewer and
    the time. *)
Theorem can_view_post_eq_can_view :
  can_view_post = can_view /\
  (forall post viewer now,
      can_view_post post viewer now = can_view post viewer now).
Proof.
  split; [reflexivity | intros; reflexivity].
Qed.

(** The scenarios of the specification, on the example blog. *)
Example scenario_published_past :
  can_view Scenario.story AnonymousUser 200 = true.
Proof. reflexivity. Qed.

Example scenario_future_dated :
  can_view Scenario.note AnonymousUser 55 = false.
Proof. reflexivity. Qed.

Example scenario_author_of_draft :
  can_view Scenario.draft (AuthUser Scenario.alice) 200 = true.
Proof. reflexivity. Qed.

Example scenario_unpublished_category :
  let post :=
    mkPost 9 5 (Some Scenario.secret) None "Hidden" "..." None 50 true in
  can_view post (AuthUser Scenario.admin) 200 = true /\
  can_view post (AuthUser Scenario.bob) 200 = false /\
  can_view post AnonymousUser 200 = false.
Proof. repeat split. Qed.

End VisibilityFacts.

(** ** The listings *)

Module ListingFacts.

Lemma in_insert_by_pub_date (p q : Post) (l : list Post) :
  In q (insert_by_pub_date p l) <-> q = p \/ In q l.
Proof.
  induction l as [|r l IH]; simpl.
  - intuition congruence.
  - destruct (pub_date r <=? pub_date p); simpl.
    + intuition congruence.
    + rewrite IH. intuition congruence.
Qed.

Lemma in_order_by_pub_date_desc (q : Post) (l : list Post) :
  In q (order_by_pub_date_desc l) <-> In q l.
Proof.
  induction l as [|p l IH]; simpl.
  - reflexivity.
  - rewrite in_insert_by_pub_date, IH. intuition congruence.
Qed.

Lemma in_filter_posts (kwargs : Post -> bool) (db : Store) (p : Post) :
  In p (filter_posts kwargs db) <-> In p (posts db) /\ kwargs p = true.
Proof.
  unfold filter_posts. rewrite in_order_by_pub_date_desc. apply filter_In.
Qed.

(** The loop of [category_posts], started from any list [visible], adds
    the posts that pass, in their order. *)
Lemma visible_loop_filter (candidates visible : list Post)
    (viewer : RequestUser) (now : Z) :
  fold_left
    (fun visible post =>
       if can_view_post post viewer now then visible ++ [post] else visible)
    candidates visible
  = visible ++ filter (fun post => can_view_post post viewer now) candidates.
Proof.
  revert visible.
  induction candidates as [|post candidates IH]; intros visible; simpl.
  - symmetry. apply app_nil_r.
  - destruct (can_view_post post viewer now).
    + rewrite IH, <- app_assoc. reflexivity.
    + apply IH.
Qed.

Lemma visible_posts_filter (candidates : list Post) (viewer : RequestUser)
    (now : Z) :
  visible_posts candidates viewer now
  = filter (fun post => can_view_post post viewer now) candidates.
Proof.
  unfold visible_posts. apply visible_loop_filter.
Qed.

Lemma subsequence_filter {A : Type} (f : A -> bool) (l : list A) :
  subsequence (filter f l) l.
Proof.
  induction l as [|x l IH]; simpl.
  - constructor.
  - destruct (f x); constructor; exact IH.
Qed.

Lemma get_Got_in {A : Type} (cond : A -> bool) (table : list A) (a : A) :
  get cond table = Got a -> In a table /\ cond a = true.
Proof.
  unfold get. intros H. apply filter_In.
  destruct (filter cond table) as [|x [|y r]]; try discriminate.
  injection H as ->. left; reflexivity.
Qed.

Lemma get_DoesNotExist {A : Type} (cond : A -> bool) (table : list A) :
  get cond table = DoesNotExist <->
  forall a, In a table -> cond a = false.
Proof.
  unfold get. split.
  - intros H a Ha. destruct (cond a) eqn:E; [ | reflexivity].
    assert (In a (filter cond table)) as F by (apply filter_In; auto).
    destruct (filter cond table) as [|x [|y r]]; try discriminate.
    destruct F.
  - intros H.
    destruct (filter cond table) as [|x r] eqn:E.
    + reflexivity.
    + assert (In x (filter cond table)) as F by (rewrite E; left; reflexivity).
      apply filter_In in F. destruct F as [Hx Hc].
      rewrite (H x Hx) in Hc. discriminate.
Qed.

(** C5: the loop that filters the candidate posts of a listing keeps the
    surviving posts in the order of its input, whatever the input is; so
    the sequence [category_posts] paginates is a subsequence of the
    queryset it loops over. *)
Theorem visible_posts_subsequence :
  (forall candidates viewer now,
      subsequence (visible_posts candidates viewer now) candidates) /\
  (forall request category_slug now now_query db category,
      get (fun c => (slug c =? category_slug)%string && category_is_published c)
        (categories db) = Got category ->
      exists sequence,
        assembled_sequence
          (category_posts request category_slug now now_query db)
        = Some sequence /\
        subsequence sequence (all_category_posts category now_query db)).
Proof.
  split.
  - intros candidates viewer now.
    rewrite visible_posts_filter. apply subsequence_filter.
  - intros request category_slug now now_query db category G.
    unfold category_posts, get_object_or_404. rewrite G. simpl.
    eexists. split; [reflexivity | ].
    rewrite visible_posts_filter. apply subsequence_filter.
Qed.

Lemma category_posts_404_iff (request : HttpRequest) (category_slug : string)
    (now now_query : Z) (db : Store) :
  category_posts request category_slug now now_query db = Http404 <->
  get (fun c => (slug c =? category_slug)%string && category_is_published c)
    (categories db) = DoesNotExist.
Proof.
  unfold category_posts, get_object_or_404.
  destruct (get _ (categories db)); split; intros H;
    try reflexivity; discriminate.
Qed.

(** C4: the category page is rendered only when a published category of
    that slug is stored; when no category has the slug, or those that
    have it are unpublished, the view answers not-found; and whether it
    answers not-found depends on the slug and the category table alone,
    not on the posts, the viewer or the time, so not on the category
    check made for each post. *)
Theorem category_page_gate :
  (forall request category_slug now now_query db template context,
      category_posts request category_slug now now_query db
      = Render template context ->
      exists c, In c (categories db) /\ slug c = category_slug /\
                category_is_published c = true) /\
  (forall request category_slug now now_query db,
      (forall c, In c (categories db) -> slug c = category_slug ->
                 category_is_published c = false) ->
      category_posts request category_slug now now_query db = Http404) /\
  (forall request request' category_slug now now' now_query now_query' db db',
      categories db = categories db' ->
      (category_posts request category_slug now now_query db = Http404 <->
       category_posts request' category_slug now' now_query' db' = Http404)).
Proof.
  split; [ | split].
  - intros request category_slug now now_query db template context H.
    unfold category_posts, get_object_or_404 in H.
    destruct (get _ (categories db)) as [| |c] eqn:G; try discriminate.
    apply get_Got_in in G. destruct G as [Hin Hc].
    apply andb_true_iff in Hc. destruct Hc as [Hs Hp].
    apply String.eqb_eq in Hs.
    exists c. auto.
  - intros request category_slug now now_query db H.
    apply category_posts_404_iff, get_DoesNotExist.
    intros c Hin.
    destruct (slug c =? category_slug)%string eqn:Hs; [ | reflexivity].
    apply String.eqb_eq in Hs. rewrite (H c Hin Hs). reflexivity.
  - intros request request' category_slug now now' now_query now_query' db db' E.
    rewrite !category_posts_404_iff, E. reflexivity.
Qed.

(** Pages of ten: 25 items make three pages, and a page number out of
    range gives the last one. *)
Example paginated_view_pages :
  let items := map Z.of_nat (seq 1 25) in
  let page n := paginated_view (mkRequest GET AnonymousUser n Invalid Invalid)
                  items PAGE in
  object_list (page None) = map Z.of_nat (seq 1 10) /\
  object_list (page (Some 2)) = map Z.of_nat (seq 11 10) /\
  object_list (page (Some 3)) = map Z.of_nat (seq 21 5) /\
  number (page (Some 99)) = 3 /\
  number (page (Some 0)) = 3.
Proof. repeat split. Qed.

(** The home feed holds the stored posts that are published, not
    future-dated and in a published category. *)
Lemma in_all_posts (now : Z) (db : Store) (p : Post) :
  In p (all_posts now db) <->
  In p (posts db) /\ is_published p = true /\ pub_date p <= now /\
  exists c, category p = Some c /\ category_is_published c = true.
Proof.
  unfold all_posts. rewrite in_filter_posts.
  unfold category__is_published, pub_date__lte.
  rewrite !andb_true_iff, Z.leb_le.
  destruct (category p) as [c|].
  - split.
    + intros [Hin [[Hp Hc] Hd]]. repeat split; auto. exists c. auto.
    + intros [Hin [Hp [Hd [c' [E Hc]]]]]. injection E as ->. auto.
  - split.
    + intros [_ [[_ Hc] _]]. discriminate.
    + intros [_ [_ [_ [c' [E _]]]]]. discriminate.
Qed.


(** The category page too leaves out the draft of the author who asks for
    it, although the loop would let it pass: the query has dropped it. *)
Example category_page_without_author_draft :
  assembled_sequence
    (category_posts (Scenario.request_of GET (AuthUser Scenario.alice))
       "travel" 200 200 Scenario.blog)
  = Some [Scenario.story] /\
  can_view_post Scenario.draft (AuthUser Scenario.alice) 200 = true.
Proof. split; reflexivity. Qed.



(** On the example blog, asked by bob and read at 55 for the loop and at
    60 for the query: the query finds the story, the loop keeps it. *)
Example category_feed_on_blog :
  all_category_posts Scenario.travel 60 Scenario.blog = [Scenario.story] /\
  assembled_sequence
    (category_posts (Scenario.request_of GET (AuthUser Scenario.bob))
       "travel" 55 60 Scenario.blog)
  = Some [Scenario.story].
Proof. split; reflexivity. Qed.

End ListingFacts.

(** ** The single-post view *)

Module DetailFacts.

Import Scenario.

(** What [post_detail] answers, by the lookup and the decision. *)
Lemma post_detail_cases (request : HttpRequest) (post_id now : Z) (db : Store) :
  match get (fun p => post_pk p =? post_id) (posts db) with
  | DoesNotExist => post_detail request post_id now db = Http404
  | MultipleObjectsReturned =>
      post_detail request post_id now db = ServerError "MultipleObjectsReturned"
  | Got post =>
      if can_view post (user request) now
      then post_detail request post_id now db
           = Render "blog/detail.html"
               (DetailContext post (post_comments post db) (UnboundForm None) now)
      else post_detail request post_id now db = Http404
  end.
Proof.
  unfold post_detail, get_object_or_404.
  destruct (get _ (posts db)) as [| |post]; try reflexivity.
  destruct (can_view post (user request) now); reflexivity.
Qed.

(** C7: when the requested post is one the viewer can view, the
    single-post view shows every stored comment of that post and nothing
    else, published or not: the comments pass no check of their own. *)
Theorem post_detail_shows_all_comments
    (request : HttpRequest) (post_id now : Z) (db : Store) (post : Post) :
  get (fun p => post_pk p =? post_id) (posts db) = Got post ->
  can_view post (user request) now = true ->
  exists shown,
    shown_comments (post_detail request post_id now db) = Some shown /\
    forall c, In c shown <-> In c (comments db) /\ comment_post c = post_pk post.
Proof.
  intros G V.
  pose proof (post_detail_cases request post_id now db) as H.
  rewrite G, V in H. rewrite H. simpl.
  eexists. split; [reflexivity | ].
  intros c. unfold post_comments. rewrite filter_In, Z.eqb_eq. reflexivity.
Qed.

(** On the example blog the draft is shown to its author with both its
    comments, the unpublished one too. *)
Lemma post_detail_shows_all_comments_witness :
  exists shown,
    shown_comments (post_detail (request_of GET (AuthUser alice)) 1 200 blog)
    = Some shown /\
    forall c, In c shown <-> In c (comments blog) /\ comment_post c = post_pk draft.
Proof.
  apply (post_detail_shows_all_comments
           (request_of GET (AuthUser alice)) 1 200 blog draft);
    reflexivity.
Defined.

Example post_detail_draft_comments :
  shown_comments (post_detail (request_of GET (AuthUser alice)) 1 200 blog)
  = Some [praise; rant].
Proof. reflexivity. Qed.

Example post_detail_draft_hidden :
  post_detail (request_of GET (AuthUser bob)) 1 200 blog = Http404 /\
  post_detail (request_of GET AnonymousUser) 1 200 blog = Http404 /\
  shown_comments (post_detail (request_of GET (AuthUser admin)) 1 200 blog)
  = Some [praise; rant].
Proof. repeat split. Qed.

End DetailFacts.

(** ** The views that write *)

Module MutationFacts.

Import Scenario.

(** After [@login_required] let a request through, the comparison with
    [request.user] is a comparison of primary keys. *)
Lemma author_is_AuthUser (owner : Z) (u : User) :
  author_is owner (AuthUser u) = (owner =? user_pk u).
Proof. reflexivity. Qed.

Ltac not_author Hne :=
  rewrite author_is_AuthUser;
  let E := fresh "E" in
  match goal with
  | |- context [?a =? ?b] =>
      destruct (Z.eqb_spec a b) as [E | E]; [contradiction (Hne E) | ]
  end.

(** C6: a logged-in requester who is not the author of the stored post
    (or comment) gets a redirect from [edit_post] and [delete_post] and
    a forbidden response from [edit_comment] and [delete_comment],
    whatever the method and the submitted form are and whether or not
    the record is visible to that requester; the store stays as it was. *)
Theorem non_author_cannot_mutate (request : HttpRequest) (u : User) (db : Store) :
  user request = AuthUser u ->
  (forall post_id post,
      get (fun p => post_pk p =? post_id) (posts db) = Got post ->
      author post <> user_pk u ->
      edit_post request post_id db
      = (Redirect (PostDetailRoute (post_pk post)), db) /\
      delete_post request post_id db
      = (Redirect (PostDetailRoute (post_pk post)), db)) /\
  (forall post_id comment_id comment,
      get (comment_lookup post_id comment_id) (comments db) = Got comment ->
      comment_author comment <> user_pk u ->
      edit_comment request post_id comment_id db = (HttpResponseForbidden, db) /\
      delete_comment request post_id comment_id db = (HttpResponseForbidden, db)).
Proof.
  intros Hu. split.
  - intros post_id post G Hne.
    unfold edit_post, delete_post, login_required, get_object_or_404.
    rewrite Hu, G. not_author Hne. split; reflexivity.
  - intros post_id comment_id comment G Hne.
    unfold edit_comment, delete_comment, login_required, get_object_or_404.
    rewrite Hu, G. not_author Hne. split; reflexivity.
Qed.

(** On the example blog bob, and the staff member too, can touch neither
    alice's draft nor the comment of someone else. *)
Lemma non_author_cannot_mutate_witness :
  (edit_post (request_of POST (AuthUser bob)) 1 blog
   = (Redirect (PostDetailRoute 1), blog) /\
   delete_post (request_of POST (AuthUser bob)) 1 blog
   = (Redirect (PostDetailRoute 1), blog)) /\
  (edit_comment (request_of POST (AuthUser bob)) 1 2 blog
   = (HttpResponseForbidden, blog) /\
   delete_comment (request_of POST (AuthUser bob)) 1 2 blog
   = (HttpResponseForbidden, blog)).
Proof.
  destruct (non_author_cannot_mutate (request_of POST (AuthUser bob)) bob blog
              eq_refl) as [Hpost Hcomment].
  split.
  - apply (Hpost 1 draft); [reflexivity | discriminate].
  - apply (Hcomment 1 2 rant); [reflexivity | discriminate].
Defined.

(** C8: a post that [create_post] stores (a POST of a logged-in user
    with a valid form) is one new row whose author is the requester and
    whose flag is true, whatever flag the form had; its [pub_date] is
    the one of the form, or the time of creation when the form has
    none. *)
Theorem create_post_stores
    (request : HttpRequest) (u : User) (now : Z) (db : Store) (d : PostFormData) :
  user request = AuthUser u ->
  method request = POST ->
  POST_post_form request = Valid d ->
  exists post,
    create_post request now db
    = (Redirect (ProfileRoute (username u)), insert_post post db) /\
    posts (snd (create_post request now db)) = posts db ++ [post] /\
    author post = user_pk u /\
    is_published post = true /\
    (forall t, form_pub_date d = Some t -> pub_date post = t) /\
    (form_pub_date d = None -> pub_date post = now).
Proof.
  intros Hu Hm Hf.
  unfold create_post, login_required. rewrite Hu, Hm, Hf. simpl.
  eexists. split; [reflexivity | ]. simpl.
  repeat split.
  - intros t E. rewrite E. reflexivity.
  - intros E. rewrite E. reflexivity.
Qed.

(** On the example blog: the form asks for an unpublished post and gives
    no date. *)
Lemma create_post_stores_witness :
  exists post,
    create_post (request_of POST (AuthUser bob)) 200 blog
    = (Redirect (ProfileRoute "bob"), insert_post post blog) /\
    posts (snd (create_post (request_of POST (AuthUser bob)) 200 blog))
    = posts blog ++ [post] /\
    author post = 2 /\
    is_published post = true /\
    (forall t, form_pub_date new_post_form = Some t -> pub_date post = t) /\
    (form_pub_date new_post_form = None -> pub_date post = 200).
Proof.
  exact (create_post_stores (request_of POST (AuthUser bob)) bob 200 blog
           new_post_form eq_refl eq_refl eq_refl).
Defined.

Example create_post_on_blog :
  posts (snd (create_post (request_of POST (AuthUser bob)) 200 blog))
  = [draft; story; note;
     mkPost 4 2 (Some travel) None "New" "fresh" None 200 true].
Proof. reflexivity. Qed.

Lemma in_updated_comments (saved : Comment) (db : Store) (c : Comment) :
  In c (comments (update_comment saved db)) <->
  (c = saved /\ exists old, In old (comments db) /\ comment_pk old = comment_pk saved) \/
  (In c (comments db) /\ comment_pk c <> comment_pk saved).
Proof.
  unfold update_comment. simpl. rewrite in_map_iff. split.
  - intros [old [E Hin]].
    destruct (Z.eqb_spec (comment_pk old) (comment_pk saved)) as [K | K].
    + left. split; [symmetry; exact E | exists old; auto].
    + right. subst c. auto.
  - intros [[E [old [Hin K]]] | [Hin K]].
    + exists old. apply Z.eqb_eq in K. rewrite K. auto.
    + exists c. apply Z.eqb_neq in K. rewrite K. auto.
Qed.

(** C9: an edit of a comment that goes through (a POST of the comment's
    author with a valid form) stores the comment with the flag true,
    whatever it was, the text of the form, and the post, the author, the
    key and the creation time it had; the other comments and the other
    tables stay as they were. *)
Theorem edit_comment_saves
    (request : HttpRequest) (u : User) (post_id comment_id : Z) (db : Store)
    (comment : Comment) (d : CommentFormData) :
  user request = AuthUser u ->
  method request = POST ->
  get (comment_lookup post_id comment_id) (comments db) = Got comment ->
  comment_author comment = user_pk u ->
  POST_comment_form request = Valid d ->
  exists saved db',
    edit_comment request post_id comment_id db
    = (Redirect (PostDetailRoute post_id), db') /\
    comment_is_published saved = true /\
    comment_text saved = form_comment_text d /\
    comment_post saved = comment_post comment /\
    comment_author saved = comment_author comment /\
    comment_pk saved = comment_pk comment /\
    created_at saved = created_at comment /\
    In saved (comments db') /\
    (forall c, In c (comments db') -> comment_pk c = comment_id -> c = saved) /\
    (forall c, comment_pk c <> comment_id ->
               (In c (comments db') <-> In c (comments db))) /\
    users db' = users db /\ categories db' = categories db /\
    posts db' = posts db.
Proof.
  intros Hu Hm G Ha Hf.
  destruct (ListingFacts.get_Got_in _ _ _ G) as [Hin Hl].
  apply andb_true_iff in Hl. destruct Hl as [Hk _]. apply Z.eqb_eq in Hk.
  assert (author_is (comment_author comment) (AuthUser u) = true) as Hb
    by (rewrite author_is_AuthUser; apply Z.eqb_eq; exact Ha).
  unfold edit_comment, login_required, get_object_or_404.
  rewrite Hu, G, Hm, Hf, Hb. simpl.
  exists (mkComment (comment_pk comment) (comment_post comment)
            (comment_author comment) (form_comment_text d)
            (created_at comment) true).
  eexists. split; [reflexivity | ].
  do 6 (split; [reflexivity | ]).
  split; [ | split; [ | split; [ | repeat split]]].
  - apply in_updated_comments. left. split; [reflexivity | ].
    exists comment. auto.
  - intros c Hc Hpk. apply in_updated_comments in Hc.
    destruct Hc as [[E _] | [_ K]]; [exact E | ].
    simpl in K. congruence.
  - intros c Hpk. rewrite in_updated_comments. simpl. split.
    + intros [[E _] | [Hc _]]; [ | exact Hc].
      subst c. simpl in Hpk. congruence.
    + intros Hc. right. split; [exact Hc | congruence].
Qed.

(** On the example blog the staff member edits the unpublished comment. *)
Lemma edit_comment_saves_witness :
  exists saved db',
    edit_comment (request_of POST (AuthUser admin)) 1 2 blog
    = (Redirect (PostDetailRoute 1), db') /\
    comment_is_published saved = true /\
    comment_text saved = "edited"%string /\
    comment_post saved = comment_post rant /\
    comment_author saved = comment_author rant /\
    comment_pk saved = comment_pk rant /\
    created_at saved = created_at rant /\
    In saved (comments db') /\
    (forall c, In c (comments db') -> comment_pk c = 2 -> c = saved) /\
    (forall c, comment_pk c <> 2 ->
               (In c (comments db') <-> In c (comments blog))) /\
    users db' = users blog /\ categories db' = categories blog /\
    posts db' = posts blog.
Proof.
  exact (edit_comment_saves (request_of POST (AuthUser admin)) admin 1 2 blog
           rant (mkCommentFormData "edited")
           eq_refl eq_refl eq_refl eq_refl eq_refl).
Defined.

Example edit_comment_on_blog :
  comments (snd (edit_comment (request_of POST (AuthUser admin)) 1 2 blog))
  = [praise; mkComment 2 1 3 "edited" 120 true; reply].
Proof. reflexivity. Qed.

Lemma not_POST (m : Method) : m <> POST -> is_POST m = false.
Proof. destruct m; [reflexivity | contradiction | reflexivity]. Qed.

(** C10: on a request that is not a POST, [delete_post] and
    [delete_comment] leave the store as it was, whoever asks; the author
    of the record gets the confirmation page. *)
Theorem delete_only_on_POST (request : HttpRequest) (db : Store) :
  method request <> POST ->
  (forall post_id, snd (delete_post request post_id db) = db) /\
  (forall post_id comment_id,
      snd (delete_comment request post_id comment_id db) = db) /\
  (forall u post_id post,
      user request = AuthUser u ->
      get (fun p => post_pk p =? post_id) (posts db) = Got post ->
      author post = user_pk u ->
      delete_post request post_id db
      = (Render "blog/create.html" (PostDeleteContext post), db)) /\
  (forall u post_id comment_id comment,
      user request = AuthUser u ->
      get (comment_lookup post_id comment_id) (comments db) = Got comment ->
      comment_author comment = user_pk u ->
      delete_comment request post_id comment_id db
      = (Render "blog/comment.html"
           (CommentDeleteContext comment (comment_post comment)), db)).
Proof.
  intros Hm. apply not_POST in Hm.
  split; [ | split; [ | split]].
  - intros post_id. unfold delete_post, login_required, get_object_or_404.
    rewrite Hm.
    destruct (user request) as [|u]; [reflexivity | ].
    destruct (get _ (posts db)) as [| |post]; try reflexivity.
    destruct (negb _); reflexivity.
  - intros post_id comment_id.
    unfold delete_comment, login_required, get_object_or_404.
    rewrite Hm.
    destruct (user request) as [|u]; [reflexivity | ].
    destruct (get _ (comments db)) as [| |comment]; try reflexivity.
    destruct (negb _); reflexivity.
  - intros u post_id post Hu G Ha.
    unfold delete_post, login_required, get_object_or_404.
    rewrite Hu, G, Hm, author_is_AuthUser, Ha, Z.eqb_refl. reflexivity.
  - intros u post_id comment_id comment Hu G Ha.
    unfold delete_comment, login_required, get_object_or_404.
    rewrite Hu, G, Hm, author_is_AuthUser, Ha, Z.eqb_refl. reflexivity.
Qed.

(** On the example blog alice asks with GET to delete her draft and her
    comment. *)
Lemma delete_only_on_POST_witness :
  delete_post (request_of GET (AuthUser alice)) 1 blog
  = (Render "blog/create.html" (PostDeleteContext draft), blog) /\
  delete_comment (request_of GET (AuthUser alice)) 2 3 blog
  = (Render "blog/comment.html" (CommentDeleteContext reply 2), blog).
Proof.
  destruct (delete_only_on_POST (request_of GET (AuthUser alice)) blog)
    as [_ [_ [Hpost Hcomment]]].
  - discriminate.
  - split.
    + exact (Hpost alice 1 draft eq_refl eq_refl eq_refl).
    + exact (Hcomment alice 2 3 reply eq_refl eq_refl eq_refl).
Defined.

(** The same requests as POST do delete. *)
Example delete_on_POST :
  snd (delete_post (request_of POST (AuthUser alice)) 1 blog)
  = mkStore [alice; bob; admin] [travel; secret] [story; note] [reply] /\
  snd (delete_comment (request_of POST (AuthUser alice)) 2 3 blog)
  = mkStore [alice; bob; admin] [travel; secret] [draft; story; note]
      [praise; rant].
Proof. split; reflexivity. Qed.

End MutationFacts.

(** ** Pagination *)

Module PaginationFacts.

Lemma PAGE_pos : 0 < PAGE.
Proof. reflexivity. Qed.

(** [num_pages] is the least number of pages that hold the listing. *)
Lemma num_pages_bounds {A : Type} (queryset : list A) (per_page : Z) :
  0 < per_page ->
  let hits := Z.max 1 (Z.of_nat (List.length queryset)) in
  1 <= num_pages queryset per_page /\
  (num_pages queryset per_page - 1) * per_page < hits /\
  hits <= num_pages queryset per_page * per_page.
Proof.
  intros Hk hits. unfold num_pages. fold hits.
  assert (1 <= hits) as Hh by (unfold hits; lia).
  pose proof (Z.div_mod (hits + per_page - 1) per_page ltac:(lia)) as D.
  pose proof (Z.mod_pos_bound (hits + per_page - 1) per_page Hk) as M.
  set (q := (hits + per_page - 1) / per_page) in *.
  set (r := (hits + per_page - 1) mod per_page) in *.
  assert (1 <= q) by nia.
  repeat split; nia.
Qed.

(** The page number [get_page] settles on lies among the pages. *)
Lemma get_page_number {A : Type} (queryset : list A) (per_page : Z)
    (page_number : option Z) :
  0 < per_page ->
  1 <= number (get_page queryset per_page page_number)
  <= num_pages queryset per_page.
Proof.
  intros Hk.
  destruct (num_pages_bounds queryset per_page Hk) as [H1 _].
  unfold get_page. simpl.
  destruct page_number as [n|]; [ | lia].
  destruct (Z.ltb_spec n 1); simpl; [lia | ].
  destruct (Z.ltb_spec (num_pages queryset per_page) n); lia.
Qed.

Lemma get_page_number_valid {A : Type} (queryset : list A) (per_page n : Z) :
  1 <= n <= num_pages queryset per_page ->
  number (get_page queryset per_page (Some n)) = n.
Proof.
  intros [H1 H2]. unfold get_page. cbn [number].
  destruct (Z.ltb_spec n 1); [lia | ].
  destruct (Z.ltb_spec (num_pages queryset per_page) n); [lia | reflexivity].
Qed.

(** The items of a page, as a slice of the listing. *)
Lemma get_page_slice {A : Type} (queryset : list A) (per_page : Z)
    (page_number : option Z) :
  0 < per_page ->
  let page := get_page queryset per_page page_number in
  object_list page
  = firstn (Z.to_nat per_page)
      (skipn (Z.to_nat ((number page - 1) * per_page)) queryset).
Proof.
  intros Hk page.
  pose proof (get_page_number queryset per_page page_number Hk) as Hn.
  fold page in Hn.
  unfold page, get_page in *. simpl in *.
  set (n := match page_number with
            | None => 1
            | Some n => _
            end) in *.
  set (bottom := (n - 1) * per_page).
  assert (0 <= bottom) as Hb by (unfold bottom; nia).
  set (rest := skipn (Z.to_nat bottom) queryset).
  assert (List.length rest = List.length queryset - Z.to_nat bottom)%nat as Hr
    by (unfold rest; apply length_skipn).
  destruct (Z.leb_spec (Z.of_nat (List.length queryset)) (bottom + per_page))
    as [Hlast | Hmore].
  - rewrite (firstn_all2 (n := Z.to_nat per_page)) by lia.
    apply firstn_all2. lia.
  - f_equal. lia.
Qed.

Lemma subsequence_refl {A : Type} (l : list A) : subsequence l l.
Proof. induction l; constructor; assumption. Qed.

Lemma subsequence_nil_l {A : Type} (l : list A) : subsequence [] l.
Proof. induction l; constructor; assumption. Qed.

Lemma subsequence_firstn {A : Type} (n : nat) (l : list A) :
  subsequence (firstn n l) l.
Proof.
  revert n. induction l as [|x l IH]; intros [|n]; simpl.
  - constructor.
  - constructor.
  - apply subsequence_nil_l.
  - apply subsequence_keep, IH.
Qed.

Lemma subsequence_skipn {A : Type} (n : nat) (l : list A) :
  subsequence (skipn n l) l.
Proof.
  revert n. induction l as [|x l IH]; intros [|n]; simpl.
  - constructor.
  - constructor.
  - apply subsequence_refl.
  - apply subsequence_skip, IH.
Qed.

Lemma subsequence_trans {A : Type} (l1 l2 l3 : list A) :
  subsequence l1 l2 -> subsequence l2 l3 -> subsequence l1 l3.
Proof.
  intros H12 H23. revert l1 H12.
  induction H23 as [|x l2 l3 H IH|x l2 l3 H IH]; intros l1 H12.
  - exact H12.
  - apply subsequence_skip, IH, H12.
  - inversion H12; subst.
    + apply subsequence_skip, IH. assumption.
    + apply subsequence_keep, IH. assumption.
Qed.

(** Slices of width [k], one after the other, give back a list that
    [m] of them can hold. *)
Lemma concat_slices {A : Type} (k m : nat) (l : list A) :
  (List.length l <= m * k)%nat ->
  List.concat (map (fun i => firstn k (skipn (i * k) l)) (seq 0 m)) = l.
Proof.
  revert l. induction m as [|m IH]; intros l Hl.
  - destruct l; [reflexivity | simpl in Hl; lia].
  - change (seq 0 (S m)) with (0%nat :: seq 1 m).
    rewrite <- seq_shift, map_cons, map_map, concat_cons.
    change (skipn (0 * k) l) with l.
    transitivity (firstn k l ++ skipn k l); [ | apply firstn_skipn].
    f_equal.
    etransitivity;
      [ | apply (IH (skipn k l)); rewrite length_skipn; simpl in Hl; lia].
    f_equal. apply map_ext. intros i.
    rewrite skipn_skipn. f_equal. f_equal. simpl. lia.
Qed.

(** X1: whatever page the request asks for, [paginated_view] answers
    with a page whose number lies among the pages of the listing (the
    first one when the parameter is absent or no integer, the last one
    when it is out of range), that holds at most ten items, in the order
    of the listing, and that is empty only when the listing is. *)
Theorem paginated_view_page {A : Type} (request : HttpRequest)
    (queryset : list A) :
  let page := paginated_view request queryset PAGE in
  1 <= number page <= num_pages queryset PAGE /\
  (GET_page request = None -> number page = 1) /\
  (forall n, GET_page request = Some n ->
             (1 <= n <= num_pages queryset PAGE -> number page = n) /\
             (n < 1 \/ num_pages queryset PAGE < n ->
              number page = num_pages queryset PAGE)) /\
  (List.length (object_list page) <= 10)%nat /\
  subsequence (object_list page) queryset /\
  (queryset <> [] -> object_list page <> []).
Proof.
  intros page.
  pose proof (get_page_number queryset PAGE (GET_page request) PAGE_pos) as Hn.
  pose proof (get_page_slice queryset PAGE (GET_page request) PAGE_pos) as Hs.
  cbv zeta in Hs. fold (paginated_view request queryset PAGE) in Hn, Hs.
  fold page in Hn, Hs.
  destruct (num_pages_bounds queryset PAGE PAGE_pos) as [_ [Hlow _]].
  split; [exact Hn | ].
  split; [ | split; [ | split; [ | split]]].
  - intros E. unfold page, paginated_view, get_page. rewrite E. reflexivity.
  - intros n E. unfold page, paginated_view, get_page. rewrite E. simpl.
    split.
    + intros [H1 H2].
      destruct (Z.ltb_spec n 1); [lia | ].
      destruct (Z.ltb_spec (num_pages queryset PAGE) n); [lia | reflexivity].
    + intros [H | H].
      * destruct (Z.ltb_spec n 1); [reflexivity | lia].
      * destruct (Z.ltb_spec n 1); [reflexivity | ].
        destruct (Z.ltb_spec (num_pages queryset PAGE) n); [reflexivity | lia].
  - rewrite Hs, length_firstn. change (Z.to_nat PAGE) with 10%nat. lia.
  - rewrite Hs.
    eapply subsequence_trans; [apply subsequence_firstn | apply subsequence_skipn].
  - intros Hne Hnil.
    assert (List.length (object_list page) = 0%nat) as L
      by (rewrite Hnil; reflexivity).
    rewrite Hs, length_firstn, length_skipn in L.
    change (Z.to_nat PAGE) with 10%nat in L.
    assert (1 <= Z.of_nat (List.length queryset))
      by (destruct queryset; [contradiction | simpl; lia]).
    unfold PAGE in *. lia.
Qed.

(** X2: the pages 1 to [num_pages] of a listing, one after the other, are
    the listing: pagination loses no item, repeats none and keeps the
    order. *)
Theorem all_pages_cover {A : Type} (request : HttpRequest) (queryset : list A) :
  List.concat (all_pages request queryset) = queryset.
Proof.
  unfold all_pages.
  destruct (num_pages_bounds queryset PAGE PAGE_pos) as [Hone [_ Hup]].
  set (m := Z.to_nat (num_pages queryset PAGE)).
  rewrite <- seq_shift, map_map.
  etransitivity;
    [ | apply (concat_slices 10 m queryset); unfold m, PAGE in *; lia].
  f_equal. apply map_ext_in. intros i Hi. apply in_seq in Hi.
  pose proof (get_page_slice queryset PAGE (Some (Z.of_nat (S i))) PAGE_pos) as Hs.
  cbv zeta in Hs. unfold paginated_view, with_page. cbn [GET_page].
  rewrite Hs. change (Z.to_nat PAGE) with 10%nat.
  rewrite get_page_number_valid by (unfold m in Hi; lia).
  f_equal. f_equal. unfold PAGE. lia.
Qed.

End PaginationFacts.

(** ** The order of the feeds *)

Module OrderFacts.

Lemma insert_by_pub_date_perm (p : Post) (l : list Post) :
  Permutation (insert_by_pub_date p l) (p :: l).
Proof.
  induction l as [|q l IH]; simpl.
  - apply Permutation_refl.
  - destruct (pub_date q <=? pub_date p).
    + apply Permutation_refl.
    + eapply perm_trans; [apply perm_skip, IH | apply perm_swap].
Qed.

Lemma order_by_pub_date_desc_perm (l : list Post) :
  Permutation (order_by_pub_date_desc l) l.
Proof.
  induction l as [|p l IH]; simpl.
  - apply perm_nil.
  - eapply perm_trans; [apply insert_by_pub_date_perm | apply perm_skip, IH].
Qed.

Lemma insert_by_pub_date_sorted (p : Post) (l : list Post) :
  newest_first l -> newest_first (insert_by_pub_date p l).
Proof.
  unfold newest_first.
  induction l as [|q l IH]; intros S; simpl.
  - constructor; constructor.
  - inversion S as [|q' l' Sl Fq]; subst.
    destruct (Z.leb_spec (pub_date q) (pub_date p)) as [Hle | Hlt].
    + constructor; [exact S | ].
      constructor; [exact Hle | ].
      apply Forall_forall. intros r Hr.
      rewrite Forall_forall in Fq. specialize (Fq r Hr). lia.
    + constructor; [apply IH; exact Sl | ].
      apply Forall_forall. intros r Hr.
      apply ListingFacts.in_insert_by_pub_date in Hr.
      destruct Hr as [-> | Hr]; [lia | ].
      rewrite Forall_forall in Fq. apply Fq, Hr.
Qed.

Lemma order_by_pub_date_desc_sorted (l : list Post) :
  newest_first (order_by_pub_date_desc l).
Proof.
  induction l as [|p l IH]; simpl.
  - constructor.
  - apply insert_by_pub_date_sorted, IH.
Qed.

Lemma subsequence_in {A : Type} (sub l : list A) (x : A) :
  subsequence sub l -> In x sub -> In x l.
Proof.
  induction 1 as [|y sub l H IH|y sub l H IH]; simpl; intros Hx.
  - exact Hx.
  - right. apply IH, Hx.
  - destruct Hx as [-> | Hx]; [left; reflexivity | right; apply IH, Hx].
Qed.

Lemma newest_first_subsequence (sub l : list Post) :
  subsequence sub l -> newest_first l -> newest_first sub.
Proof.
  unfold newest_first.
  induction 1 as [|y sub l H IH|y sub l H IH]; intros S.
  - constructor.
  - inversion S; subst. apply IH. assumption.
  - inversion S as [|y' l' Sl Fy]; subst.
    constructor; [apply IH, Sl | ].
    apply Forall_forall. intros r Hr.
    rewrite Forall_forall in Fy. apply Fy.
    eapply subsequence_in; eassumption.
Qed.

(** X3: [filter_posts] answers with the stored posts that pass the
    lookups, each as often as it is stored, newest first. *)
Theorem filter_posts_sorted_perm (kwargs : Post -> bool) (db : Store) :
  newest_first (filter_posts kwargs db) /\
  Permutation (filter_posts kwargs db) (filter kwargs (posts db)).
Proof.
  unfold filter_posts. split.
  - apply order_by_pub_date_desc_sorted.
  - apply order_by_pub_date_desc_perm.
Qed.

(** X4: the sequences that [index] and [category_posts] paginate are
    newest first: the loop of [category_posts] keeps the order of the
    query. *)
Theorem feeds_newest_first :
  (forall request now db,
      exists sequence,
        assembled_sequence (index request now db) = Some sequence /\
        newest_first sequence) /\
  (forall request category_slug now now_query db sequence,
      assembled_sequence (category_posts request category_slug now now_query db)
      = Some sequence ->
      newest_first sequence).
Proof.
  split.
  - intros request now db. eexists. split; [reflexivity | ].
    simpl. apply order_by_pub_date_desc_sorted.
  - intros request category_slug now now_query db sequence.
    unfold category_posts, get_object_or_404.
    destruct (get _ (categories db)) as [| |c]; try discriminate.
    simpl. intros E. injection E as <-.
    rewrite ListingFacts.visible_posts_filter.
    eapply newest_first_subsequence.
    + apply ListingFacts.subsequence_filter.
    + apply order_by_pub_date_desc_sorted.
Qed.

Example feeds_newest_first_on_blog :
  assembled_sequence
    (index (Scenario.request_of GET AnonymousUser) 200
       (mkStore [] [Scenario.travel]
          [Scenario.story; Scenario.draft;
           mkPost 5 2 (Some Scenario.travel) None "Late" "" None 150 true] []))
  = Some [mkPost 5 2 (Some Scenario.travel) None "Late" "" None 150 true;
          Scenario.story].
Proof. reflexivity. Qed.

End OrderFacts.

(** ** Primary keys *)

Module KeyFacts.

Import Scenario.

Lemma next_pk_fresh (pks : list Z) (k : Z) : In k pks -> k < next_pk pks.
Proof.
  unfold next_pk. induction pks as [|j pks IH]; cbn [fold_right In]; intros H.
  - destruct H.
  - destruct H as [-> | H]; [lia | ]. specialize (IH H). lia.
Qed.

Lemma next_pk_not_in (pks : list Z) : ~ In (next_pk pks) pks.
Proof. intros H. apply next_pk_fresh in H. lia. Qed.

Section Keyed.

Context {A : Type} (key : A -> Z).

Lemma filter_key_none (l : list A) (k : Z) :
  ~ In k (map key l) -> filter (fun a => key a =? k) l = [].
Proof.
  induction l as [|x l IH]; simpl; intros H; [reflexivity | ].
  destruct (Z.eqb_spec (key x) k) as [E | E].
  - exfalso. apply H. left. exact E.
  - apply IH. intros K. apply H. right. exact K.
Qed.

Lemma filter_key_unique (l : list A) (a : A) :
  NoDup (map key l) -> In a l -> filter (fun x => key x =? key a) l = [a].
Proof.
  induction l as [|x l IH]; simpl; intros N H; [destruct H | ].
  inversion N as [|k ks Hx Nl]; subst.
  destruct H as [-> | H].
  - rewrite Z.eqb_refl. f_equal. apply filter_key_none, Hx.
  - destruct (Z.eqb_spec (key x) (key a)) as [E | E].
    + exfalso. apply Hx. rewrite E. apply in_map, H.
    + apply IH; assumption.
Qed.

Lemma filter_key_short (l : list A) (k : Z) :
  NoDup (map key l) ->
  (List.length (filter (fun x => (key x =? k)%Z) l) <= 1)%nat.
Proof.
  intros N.
  destruct (filter (fun x => key x =? k) l) as [|a r] eqn:F; [simpl; lia | ].
  assert (In a (filter (fun x => key x =? k) l)) as Ha
    by (rewrite F; left; reflexivity).
  apply filter_In in Ha. destruct Ha as [Ha Hk]. apply Z.eqb_eq in Hk.
  subst k. rewrite (filter_key_unique l a N Ha) in F.
  injection F as <-. simpl. lia.
Qed.

(** A lookup that fixes the key of a table with unique keys finds at
    most one row. *)
Lemma get_key_not_multiple (l : list A) (k : Z) (also : A -> bool) :
  NoDup (map key l) ->
  get (fun x => (key x =? k) && also x) l <> MultipleObjectsReturned.
Proof.
  intros N. unfold get.
  assert (List.length (filter (fun x => ((key x =? k)%Z && also x)%bool) l)
          <= 1)%nat as L.
  { pose proof (filter_key_short l k N) as S.
    assert (List.length (filter (fun x => ((key x =? k)%Z && also x)%bool) l)
            <= List.length (filter (fun x => (key x =? k)%Z) l))%nat; [ | lia].
    clear. induction l as [|x l IH]; simpl; [lia | ].
    destruct (key x =? k); simpl; [ | exact IH].
    destruct (also x); simpl; lia. }
  destruct (filter _ l) as [|a [|b r]]; try discriminate.
  simpl in L. lia.
Qed.

Lemma get_key_only_not_multiple (l : list A) (k : Z) :
  NoDup (map key l) ->
  get (fun x => key x =? k) l <> MultipleObjectsReturned.
Proof.
  intros N H.
  apply (get_key_not_multiple l k (fun _ => true) N).
  unfold get in *.
  replace (filter (fun x => (key x =? k) && true) l)
    with (filter (fun x => key x =? k) l); [exact H | ].
  apply filter_ext. intros x. symmetry. apply andb_true_r.
Qed.

(** With unique keys a stored row is what a lookup by its key finds. *)
Lemma get_by_key (l : list A) (a : A) :
  NoDup (map key l) -> In a l -> get (fun x => key x =? key a) l = Got a.
Proof.
  intros N H. unfold get. rewrite (filter_key_unique l a N H). reflexivity.
Qed.

Lemma NoDup_map_filter (keep : A -> bool) (l : list A) :
  NoDup (map key l) -> NoDup (map key (filter keep l)).
Proof.
  induction l as [|x l IH]; simpl; intros N; [constructor | ].
  inversion N as [|k ks Hx Nl]; subst.
  destruct (keep x); simpl; [ | apply IH, Nl].
  constructor; [ | apply IH, Nl].
  intros H. apply Hx. apply in_map_iff in H. destruct H as [y [E Hy]].
  apply filter_In in Hy. rewrite <- E. apply in_map, Hy.
Qed.

Lemma map_key_update (saved : A) (l : list A) :
  map key (map (fun x => if key x =? key saved then saved else x) l)
  = map key l.
Proof.
  rewrite map_map. apply map_ext. intros x.
  destruct (Z.eqb_spec (key x) (key saved)) as [E | E]; congruence.
Qed.

Lemma NoDup_map_snoc (l : list A) (a : A) :
  NoDup (map key l) -> ~ In (key a) (map key l) -> NoDup (map key (l ++ [a])).
Proof.
  intros N H. rewrite map_app. simpl.
  apply NoDup_app; [exact N | constructor; [intros [] | constructor] | ].
  intros k Hk [<- | []]. exact (H Hk).
Qed.

End Keyed.

(** Splitting a view along the tests it makes. *)
Ltac view_cases :=
  repeat match goal with
         | |- context [user ?r] => destruct (user r)
         | |- context [get ?c ?l] => destruct (get c l)
         | |- context [is_POST ?m] => destruct (is_POST m)
         | |- context [POST_post_form ?r] => destruct (POST_post_form r)
         | |- context [POST_comment_form ?r] => destruct (POST_comment_form r)
         | |- context [form_pub_date ?d] => destruct (form_pub_date d)
         | |- context [negb ?b] => destruct (negb b)
         end.

Lemma keys_unique_same_keys (db db' : Store) :
  map post_pk (posts db') = map post_pk (posts db) ->
  map comment_pk (comments db') = map comment_pk (comments db) ->
  keys_unique db -> keys_unique db'.
Proof. unfold keys_unique. intros -> ->. exact (fun H => H). Qed.

Lemma keys_unique_insert_post (post : Post) (db : Store) :
  post_pk post = next_pk (map post_pk (posts db)) ->
  keys_unique db -> keys_unique (insert_post post db).
Proof.
  intros E [Np Nc]. split; [ | exact Nc]. simpl.
  apply NoDup_map_snoc; [exact Np | ]. rewrite E. apply next_pk_not_in.
Qed.

Lemma keys_unique_insert_comment (comment : Comment) (db : Store) :
  comment_pk comment = next_pk (map comment_pk (comments db)) ->
  keys_unique db -> keys_unique (insert_comment comment db).
Proof.
  intros E [Np Nc]. split; [exact Np | ]. simpl.
  apply NoDup_map_snoc; [exact Nc | ]. rewrite E. apply next_pk_not_in.
Qed.

Lemma keys_unique_update_post (post : Post) (db : Store) :
  keys_unique db -> keys_unique (update_post post db).
Proof.
  apply keys_unique_same_keys; [ | reflexivity].
  simpl. apply (map_key_update post_pk).
Qed.

Lemma keys_unique_update_comment (comment : Comment) (db : Store) :
  keys_unique db -> keys_unique (update_comment comment db).
Proof.
  apply keys_unique_same_keys; [reflexivity | ].
  simpl. apply (map_key_update comment_pk).
Qed.

Lemma keys_unique_delete_post_row (post : Post) (db : Store) :
  keys_unique db -> keys_unique (delete_post_row post db).
Proof.
  intros [Np Nc]. split; simpl; apply NoDup_map_filter; assumption.
Qed.

Lemma keys_unique_delete_comment_row (comment : Comment) (db : Store) :
  keys_unique db -> keys_unique (delete_comment_row comment db).
Proof.
  intros [Np Nc]. split; simpl; [exact Np | ].
  apply NoDup_map_filter; assumption.
Qed.

(** X5: when the primary keys of the store are unique, the lookups by
    key of [post_detail], [edit_post], [delete_post], [add_comment],
    [edit_comment] and [delete_comment] never find several rows: none
    of these views fails with [MultipleObjectsReturned]. *)
Theorem unique_keys_single_row (db : Store) :
  keys_unique db ->
  (forall request post_id now,
      post_detail request post_id now db
      <> ServerError "MultipleObjectsReturned") /\
  (forall request post_id,
      fst (edit_post request post_id db)
      <> ServerError "MultipleObjectsReturned" /\
      fst (delete_post request post_id db)
      <> ServerError "MultipleObjectsReturned") /\
  (forall request post_id comment_id,
      fst (edit_comment request post_id comment_id db)
      <> ServerError "MultipleObjectsReturned" /\
      fst (delete_comment request post_id comment_id db)
      <> ServerError "MultipleObjectsReturned") /\
  (forall request post_id created published,
      fst (add_comment request post_id created published db)
      <> Answer (ServerError "MultipleObjectsReturned")).
Proof.
  intros [Np Nc].
  assert (forall post_id,
             get (fun p => post_pk p =? post_id) (posts db)
             <> MultipleObjectsReturned) as Gp
    by (intros; apply (get_key_only_not_multiple post_pk); exact Np).
  assert (forall post_id comment_id,
             get (comment_lookup post_id comment_id) (comments db)
             <> MultipleObjectsReturned) as Gc
    by (intros post_id comment_id;
        apply (get_key_not_multiple comment_pk (comments db) comment_id
                 (fun c => comment_post c =? post_id)); exact Nc).
  split; [ | split; [ | split]].
  - intros request post_id now. specialize (Gp post_id).
    unfold post_detail, get_object_or_404.
    destruct (get _ (posts db)); [discriminate | contradiction | ].
    destruct (negb _); discriminate.
  - intros request post_id. specialize (Gp post_id).
    unfold edit_post, delete_post, login_required, get_object_or_404.
    destruct (user request); [split; discriminate | ].
    destruct (get _ (posts db)); [split; discriminate | contradiction | ].
    split; view_cases; discriminate.
  - intros request post_id comment_id. specialize (Gc post_id comment_id).
    unfold edit_comment, delete_comment, login_required, get_object_or_404.
    destruct (user request); [split; discriminate | ].
    destruct (get _ (comments db)); [split; discriminate | contradiction | ].
    split; view_cases; discriminate.
  - intros request post_id created published. specialize (Gp post_id).
    unfold add_comment, get_object_or_404.
    destruct (user request); [discriminate | ].
    destruct (get _ (posts db)); [discriminate | contradiction | ].
    view_cases; discriminate.
Qed.

(** On the example blog the keys are unique. *)
Lemma blog_keys_unique : keys_unique blog.
Proof.
  split; simpl; repeat constructor; simpl; intuition discriminate.
Qed.

Lemma unique_keys_single_row_witness :
  post_detail (request_of GET AnonymousUser) 2 200 blog
  <> ServerError "MultipleObjectsReturned".
Proof.
  destruct (unique_keys_single_row blog blog_keys_unique) as [H _].
  apply H.
Defined.

(** X6: every view that writes keeps the primary keys of the posts and
    of the comments unique, whatever the request is: a new row gets a key
    beyond the ones in use, a saved row keeps its key, a deletion only
    removes rows. *)
Theorem views_keep_keys_unique (db : Store) :
  keys_unique db ->
  (forall request now, keys_unique (snd (create_post request now db))) /\
  (forall request post_id, keys_unique (snd (edit_post request post_id db))) /\
  (forall request post_id, keys_unique (snd (delete_post request post_id db))) /\
  (forall request post_id created published,
      keys_unique (snd (add_comment request post_id created published db))) /\
  (forall request post_id comment_id,
      keys_unique (snd (edit_comment request post_id comment_id db))) /\
  (forall request post_id comment_id,
      keys_unique (snd (delete_comment request post_id comment_id db))).
Proof.
  intros K.
  split; [ | split; [ | split; [ | split; [ | split]]]].
  - intros request now. unfold create_post, login_required.
    view_cases; simpl; try exact K.
    all: apply keys_unique_insert_post; [reflexivity | exact K].
  - intros request post_id.
    unfold edit_post, login_required, get_object_or_404.
    view_cases; simpl; try exact K.
    apply keys_unique_update_post, K.
  - intros request post_id.
    unfold delete_post, login_required, get_object_or_404.
    view_cases; simpl; try exact K.
    apply keys_unique_delete_post_row, K.
  - intros request post_id created published.
    unfold add_comment, get_object_or_404.
    view_cases; simpl; try exact K.
    apply keys_unique_insert_comment; [reflexivity | exact K].
  - intros request post_id comment_id.
    unfold edit_comment, login_required, get_object_or_404.
    view_cases; simpl; try exact K.
    apply keys_unique_update_comment, K.
  - intros request post_id comment_id.
    unfold delete_comment, login_required, get_object_or_404.
    view_cases; simpl; try exact K.
    apply keys_unique_delete_comment_row, K.
Qed.

Lemma views_keep_keys_unique_witness :
  keys_unique (snd (create_post (request_of POST (AuthUser bob)) 200 blog)) /\
  keys_unique (snd (delete_post (request_of POST (AuthUser alice)) 1 blog)).
Proof.
  destruct (views_keep_keys_unique blog blog_keys_unique) as [Hc [_ [Hd _]]].
  split; [apply Hc | apply Hd].
Defined.

End KeyFacts.

(** ** Who gets what *)

Module AccessFacts.

Import Scenario.

(** X7: time only opens posts: a post the viewer can view at some time
    can be viewed by the same viewer at every later time. *)
Theorem can_view_later (post : Post) (viewer : RequestUser) (now later : Z) :
  can_view post viewer now = true ->
  now <= later ->
  can_view post viewer later = true.
Proof.
  rewrite !VisibilityFacts.can_view_cases, !orb_true_iff, !andb_true_iff,
    !Z.leb_le.
  intros [[[[Hp Hd] Hc] | Ha] | Hs] Hl; auto.
  left; left. repeat split; auto. lia.
Qed.

Lemma can_view_later_witness :
  can_view story AnonymousUser 200 = true.
Proof.
  apply (can_view_later story AnonymousUser 50 200); [reflexivity | discriminate].
Defined.

(** X8: [post_detail] renders a post only to a viewer who can view it,
    and then it is the stored post of the requested key; it answers
    not-found for a stored post the viewer cannot view, and for a key of
    the database's range that no post has. *)
Theorem post_detail_renders_only_viewable :
  (forall request post_id now db template context,
      post_detail request post_id now db = Render template context ->
      exists post,
        In post (posts db) /\ post_pk post = post_id /\
        can_view post (user request) now = true /\
        template = "blog/detail.html"%string /\
        context = DetailContext post (post_comments post db) (UnboundForm None) now) /\
  (forall request post_id now db post,
      get (fun p => post_pk p =? post_id) (posts db) = Got post ->
      can_view post (user request) now = false ->
      post_detail request post_id now db = Http404) /\
  (forall request post_id now db,
      key_in_range post_id ->
      (forall p, In p (posts db) -> post_pk p <> post_id) ->
      post_detail request post_id now db = Http404).
Proof.
  split; [ | split].
  - intros request post_id now db template context H.
    pose proof (DetailFacts.post_detail_cases request post_id now db) as C.
    destruct (get _ (posts db)) as [| |post] eqn:G;
      try (rewrite C in H; discriminate).
    destruct (can_view post (user request) now) eqn:V;
      [ | rewrite C in H; discriminate].
    rewrite C in H. injection H as <- <-.
    apply ListingFacts.get_Got_in in G. destruct G as [Hin Hk].
    apply Z.eqb_eq in Hk. exists post. auto.
  - intros request post_id now db post G V.
    pose proof (DetailFacts.post_detail_cases request post_id now db) as C.
    rewrite G, V in C. exact C.
  - intros request post_id now db _ H.
    pose proof (DetailFacts.post_detail_cases request post_id now db) as C.
    assert (get (fun p => post_pk p =? post_id) (posts db) = DoesNotExist) as G.
    { apply ListingFacts.get_DoesNotExist. intros p Hp.
      apply Z.eqb_neq, H, Hp. }
    rewrite G in C. exact C.
Qed.

Example post_detail_not_found_on_blog :
  post_detail (request_of GET (AuthUser admin)) 9 200 blog = Http404 /\
  post_detail (request_of GET (AuthUser bob)) 1 200 blog = Http404 /\
  key_in_range 9.
Proof. repeat split; unfold key_in_range; lia. Qed.

(** X9: every view under [@login_required] sends an anonymous request to
    the login page, whatever the method, the form and the record asked
    for, and leaves the store as it was. *)
Theorem anonymous_is_sent_to_login (request : HttpRequest) (db : Store) :
  user request = AnonymousUser ->
  (forall now, create_post request now db = (Redirect LoginRoute, db)) /\
  (forall post_id,
      edit_post request post_id db = (Redirect LoginRoute, db) /\
      delete_post request post_id db = (Redirect LoginRoute, db)) /\
  (forall post_id created published,
      add_comment request post_id created published db
      = (Answer (Redirect LoginRoute), db)) /\
  (forall post_id comment_id,
      edit_comment request post_id comment_id db = (Redirect LoginRoute, db) /\
      delete_comment request post_id comment_id db = (Redirect LoginRoute, db)).
Proof.
  intros H.
  unfold create_post, edit_post, delete_post, add_comment, edit_comment,
    delete_comment, login_required.
  rewrite H. repeat split.
Qed.

Lemma anonymous_is_sent_to_login_witness :
  delete_post (request_of POST AnonymousUser) 1 blog = (Redirect LoginRoute, blog) /\
  add_comment (request_of POST AnonymousUser) 1 300 true blog
  = (Answer (Redirect LoginRoute), blog).
Proof.
  destruct (anonymous_is_sent_to_login (request_of POST AnonymousUser) blog eq_refl)
    as [_ [Hp [Ha _]]].
  split; [apply (Hp 1) | apply Ha].
Defined.

(** X10: for a logged-in requester and keys of the database's range a
    missing record is not found and nothing is written: [edit_post],
    [delete_post] and [add_comment] when no post has the key,
    [edit_comment] and [delete_comment] when no comment has the key or
    the comment of that key belongs to another post than the one of the
    address. *)
Theorem missing_record_not_found (request : HttpRequest) (u : User) (db : Store) :
  user request = AuthUser u ->
  (forall post_id,
      key_in_range post_id ->
      (forall p, In p (posts db) -> post_pk p <> post_id) ->
      edit_post request post_id db = (Http404, db) /\
      delete_post request post_id db = (Http404, db) /\
      forall created published,
        add_comment request post_id created published db = (Answer Http404, db)) /\
  (forall post_id comment_id,
      key_in_range post_id ->
      key_in_range comment_id ->
      (forall c, In c (comments db) -> comment_pk c = comment_id ->
                 comment_post c <> post_id) ->
      edit_comment request post_id comment_id db = (Http404, db) /\
      delete_comment request post_id comment_id db = (Http404, db)).
Proof.
  intros Hu. split.
  - intros post_id _ H.
    assert (get (fun p => post_pk p =? post_id) (posts db) = DoesNotExist) as G.
    { apply ListingFacts.get_DoesNotExist. intros p Hp.
      apply Z.eqb_neq, H, Hp. }
    unfold edit_post, delete_post, add_comment, login_required,
      get_object_or_404.
    rewrite Hu, G. repeat split.
  - intros post_id comment_id _ _ H.
    assert (get (comment_lookup post_id comment_id) (comments db) = DoesNotExist)
      as G.
    { apply ListingFacts.get_DoesNotExist. intros c Hc.
      unfold comment_lookup.
      destruct (Z.eqb_spec (comment_pk c) comment_id) as [E | E];
        [ | reflexivity].
      apply Z.eqb_neq, (H c Hc E). }
    unfold edit_comment, delete_comment, login_required, get_object_or_404.
    rewrite Hu, G. repeat split.
Qed.

(** On the example blog: no post 9, and comment 3 is not one of post 1,
    although its author asks. *)
Lemma missing_record_not_found_witness :
  delete_post (request_of POST (AuthUser alice)) 9 blog = (Http404, blog) /\
  delete_comment (request_of POST (AuthUser alice)) 1 3 blog = (Http404, blog).
Proof.
  destruct (missing_record_not_found (request_of POST (AuthUser alice)) alice
              blog eq_refl) as [Hp Hc].
  split.
  - apply (Hp 9).
    + unfold key_in_range. lia.
    + intros p [<- | [<- | [<- | []]]]; discriminate.
  - apply (Hc 1 3).
    + unfold key_in_range. lia.
    + unfold key_in_range. lia.
    + intros c [<- | [<- | [<- | []]]]; simpl; intros; discriminate.
Defined.

(** X11: the views with a form write only on a POST whose form is valid:
    on another method, or when the form does not validate, [create_post],
    [edit_post], [add_comment] and [edit_comment] leave the store as it
    was. *)
Theorem form_views_write_on_valid_POST :
  (forall request db,
      method request <> POST \/ POST_post_form request = Invalid ->
      (forall now, snd (create_post request now db) = db) /\
      (forall post_id, snd (edit_post request post_id db) = db)) /\
  (forall request db,
      method request <> POST \/ POST_comment_form request = Invalid ->
      (forall post_id created published,
          snd (add_comment request post_id created published db) = db) /\
      (forall post_id comment_id,
          snd (edit_comment request post_id comment_id db) = db)).
Proof.
  split.
  - intros request db H.
    assert (is_POST (method request) = false \/ POST_post_form request = Invalid)
      as [E | E]
      by (destruct H as [H | H];
          [left; apply MutationFacts.not_POST, H | right; exact H]).
    + split; intros;
        unfold create_post, edit_post, login_required, get_object_or_404;
        rewrite E; KeyFacts.view_cases; reflexivity.
    + split; intros;
        unfold create_post, edit_post, login_required, get_object_or_404;
        rewrite E; KeyFacts.view_cases; reflexivity.
  - intros request db H.
    assert (is_POST (method request) = false \/ POST_comment_form request = Invalid)
      as [E | E]
      by (destruct H as [H | H];
          [left; apply MutationFacts.not_POST, H | right; exact H]).
    + split; intros;
        unfold add_comment, edit_comment, login_required, get_object_or_404;
        rewrite E; KeyFacts.view_cases; reflexivity.
    + split; intros;
        unfold add_comment, edit_comment, login_required, get_object_or_404;
        rewrite E; KeyFacts.view_cases; reflexivity.
Qed.

Example invalid_form_on_blog :
  create_post (mkRequest POST (AuthUser bob) None Invalid Invalid) 200 blog
  = (Render "blog/create.html" (PostFormContext (RejectedForm None)), blog) /\
  edit_comment (mkRequest POST (AuthUser admin) None Invalid Invalid) 1 2 blog
  = (Render "blog/comment.html"
       (CommentFormContext (RejectedForm (Some rant)) rant 1), blog).
Proof. split; reflexivity. Qed.

End AccessFacts.

(** ** What a write leaves for the views that read *)

Module RoundTripFacts.

Import Scenario.

Ltac author_ok Ha :=
  match goal with
  | |- context [author_is ?owner (AuthUser ?u)] =>
      replace (author_is owner (AuthUser u)) with true
        by (symmetry; apply Z.eqb_eq; exact Ha)
  end.






(** With ten older posts of the same author the new post is on the
    second page of the profile, not on the first. *)
Example created_post_on_second_page :
  let older :=
    map (fun k => mkPost (Z.of_nat k) 2 (Some travel) None "Old" "old" None 10 true)
      (seq 1 10) in
  let db := mkStore [bob] [travel] older [] in
  let request :=
    mkRequest POST (AuthUser bob) None
      (Valid (mkPostFormData (Some travel) None "Soon" "wait for it"
                None (Some 900) true))
      Invalid in
  let db' := snd (create_post request 200 db) in
  let post := mkPost 11 2 (Some travel) None "Soon" "wait for it" None 900 true in
  shown_page (profile_view (with_page request 1) "bob" db') = Some older /\
  shown_page (profile_view (with_page request 2) "bob" db') = Some [post].
Proof. split; reflexivity. Qed.

Lemma in_updated_posts (saved : Post) (db : Store) (p : Post) :
  In p (posts (update_post saved db)) <->
  (p = saved /\ exists old, In old (posts db) /\ post_pk old = post_pk saved) \/
  (In p (posts db) /\ post_pk p <> post_pk saved).
Proof.
  unfold update_post. simpl. rewrite in_map_iff. split.
  - intros [old [E Hin]].
    destruct (Z.eqb_spec (post_pk old) (post_pk saved)) as [K | K].
    + left. split; [symmetry; exact E | exists old; auto].
    + right. subst p. auto.
  - intros [[E [old [Hin K]]] | [Hin K]].
    + exists old. apply Z.eqb_eq in K. rewrite K. auto.
    + exists p. apply Z.eqb_neq in K. rewrite K. auto.
Qed.

(** X13: an edit of a post that goes through (a POST of the post's
    author with a valid form that has a date) stores the post under its
    key and with its author, and with the data of the form, the
    [is_published] flag of the form included; the other posts and the
    other tables stay as they were. *)
Theorem edit_post_saves
    (request : HttpRequest) (u : User) (post_id : Z) (db : Store)
    (post : Post) (d : PostFormData) (t : Z) :
  user request = AuthUser u ->
  method request = POST ->
  get (fun p => post_pk p =? post_id) (posts db) = Got post ->
  author post = user_pk u ->
  POST_post_form request = Valid d ->
  form_pub_date d = Some t ->
  exists saved db',
    edit_post request post_id db = (Redirect (PostDetailRoute post_id), db') /\
    post_pk saved = post_id /\
    author saved = author post /\
    is_published saved = form_is_published d /\
    pub_date saved = t /\
    category saved = form_category d /\
    location saved = form_location d /\
    title saved = form_title d /\
    text saved = form_text d /\
    image saved = form_image d /\
    In saved (posts db') /\
    (forall p, In p (posts db') -> post_pk p = post_id -> p = saved) /\
    (forall p, post_pk p <> post_id -> (In p (posts db') <-> In p (posts db))) /\
    users db' = users db /\ categories db' = categories db /\
    comments db' = comments db.
Proof.
  intros Hu Hm G Ha Hf Hd.
  destruct (ListingFacts.get_Got_in _ _ _ G) as [Hin Hk].
  apply Z.eqb_eq in Hk. subst post_id.
  unfold edit_post, login_required, get_object_or_404.
  rewrite Hu, G, Hm, Hf, Hd. author_ok Ha. cbn [negb is_POST].
  exists (mkPost (post_pk post) (author post) (form_category d) (form_location d)
            (form_title d) (form_text d) (form_image d) t (form_is_published d)).
  eexists. split; [reflexivity | ].
  do 9 (split; [reflexivity | ]).
  split; [ | split; [ | split; [ | repeat split]]].
  - apply in_updated_posts. left. split; [reflexivity | ].
    exists post. auto.
  - intros p Hp Hpk. apply in_updated_posts in Hp.
    destruct Hp as [[E _] | [_ K]]; [exact E | ].
    simpl in K. congruence.
  - intros p Hpk. rewrite in_updated_posts. simpl. split.
    + intros [[E _] | [Hp _]]; [ | exact Hp].
      subst p. simpl in Hpk. congruence.
    + intros Hp. right. split; [exact Hp | congruence].
Qed.

(** On the example blog alice unpublishes her story. *)
Lemma edit_post_saves_witness :
  exists saved db',
    edit_post (mkRequest POST (AuthUser alice) None
                 (Valid (mkPostFormData None None "Story" "gone" None (Some 50) false))
                 Invalid) 2 blog
    = (Redirect (PostDetailRoute 2), db') /\
    post_pk saved = 2 /\
    author saved = author story /\
    is_published saved = false /\
    In saved (posts db').
Proof.
  destruct (edit_post_saves
              (mkRequest POST (AuthUser alice) None
                 (Valid (mkPostFormData None None "Story" "gone" None (Some 50) false))
                 Invalid)
              alice 2 blog story _ 50 eq_refl eq_refl eq_refl eq_refl eq_refl eq_refl)
    as [saved [db' [H1 [H2 [H3 [H4 [_ [_ [_ [_ [_ [_ [H5 _]]]]]]]]]]]]].
  exists saved, db'. auto.
Defined.

(** X14: after the author deleted a post with a POST, the posts stored
    are the other ones, and [post_detail] does not find the deleted post
    any more, whoever asks and whenever. *)
Theorem delete_post_removes
    (request : HttpRequest) (u : User) (post_id : Z) (db : Store) (post : Post) :
  user request = AuthUser u ->
  method request = POST ->
  get (fun p => post_pk p =? post_id) (posts db) = Got post ->
  author post = user_pk u ->
  exists db',
    delete_post request post_id db = (Redirect (ProfileRoute (username u)), db') /\
    (forall p, In p (posts db') <-> In p (posts db) /\ post_pk p <> post_id) /\
    (forall request' later, post_detail request' post_id later db' = Http404) /\
    users db' = users db /\ categories db' = categories db.
Proof.
  intros Hu Hm G Ha.
  destruct (ListingFacts.get_Got_in _ _ _ G) as [Hin Hk].
  apply Z.eqb_eq in Hk.
  unfold delete_post, login_required, get_object_or_404.
  rewrite Hu, G, Hm. author_ok Ha. cbn [negb is_POST].
  eexists. split; [reflexivity | ].
  assert (forall p, In p (posts (delete_post_row post db)) <->
                    In p (posts db) /\ post_pk p <> post_id) as Hposts.
  { intros p. simpl. rewrite filter_In, negb_true_iff, Z.eqb_neq, Hk.
    reflexivity. }
  split; [exact Hposts | split; [ | split; reflexivity]].
  intros request' later.
  pose proof (DetailFacts.post_detail_cases request' post_id later
                (delete_post_row post db)) as C.
  assert (get (fun p => post_pk p =? post_id) (posts (delete_post_row post db))
          = DoesNotExist) as G'.
  { apply ListingFacts.get_DoesNotExist. intros p Hp.
    apply Hposts in Hp. apply Z.eqb_neq, Hp. }
  rewrite G' in C. exact C.
Qed.

Lemma delete_post_removes_witness :
  exists db',
    delete_post (request_of POST (AuthUser alice)) 1 blog
    = (Redirect (ProfileRoute "alice"), db') /\
    (forall p, In p (posts db') <-> In p (posts blog) /\ post_pk p <> 1) /\
    (forall request' later, post_detail request' 1 later db' = Http404) /\
    users db' = users blog /\ categories db' = categories blog.
Proof.
  exact (delete_post_removes (request_of POST (AuthUser alice)) alice 1 blog
           draft eq_refl eq_refl eq_refl eq_refl).
Defined.

(** X15: after the author deleted a comment with a POST, the comments
    stored, and so the comments [post_detail] shows for any post, are the
    ones of another key; posts, users and categories stay as they
    were. *)
Theorem delete_comment_removes
    (request : HttpRequest) (u : User) (post_id comment_id : Z) (db : Store)
    (comment : Comment) :
  user request = AuthUser u ->
  method request = POST ->
  get (comment_lookup post_id comment_id) (comments db) = Got comment ->
  comment_author comment = user_pk u ->
  exists db',
    delete_comment request post_id comment_id db
    = (Redirect (PostDetailRoute post_id), db') /\
    (forall c, In c (comments db') <->
               In c (comments db) /\ comment_pk c <> comment_id) /\
    (forall p c, In c (post_comments p db') <->
                 In c (post_comments p db) /\ comment_pk c <> comment_id) /\
    posts db' = posts db /\ users db' = users db /\
    categories db' = categories db.
Proof.
  intros Hu Hm G Ha.
  destruct (ListingFacts.get_Got_in _ _ _ G) as [Hin Hl].
  apply andb_true_iff in Hl. destruct Hl as [Hk _]. apply Z.eqb_eq in Hk.
  unfold delete_comment, login_required, get_object_or_404.
  rewrite Hu, G, Hm. author_ok Ha. cbn [negb is_POST].
  eexists. split; [reflexivity | ].
  assert (forall c, In c (comments (delete_comment_row comment db)) <->
                    In c (comments db) /\ comment_pk c <> comment_id) as Hc.
  { intros c. simpl. rewrite filter_In, negb_true_iff, Z.eqb_neq, Hk.
    reflexivity. }
  split; [exact Hc | split; [ | repeat split]].
  intros p c. unfold post_comments. rewrite !filter_In, Hc. tauto.
Qed.

Lemma delete_comment_removes_witness :
  exists db',
    delete_comment (request_of POST (AuthUser admin)) 1 2 blog
    = (Redirect (PostDetailRoute 1), db') /\
    (forall c, In c (comments db') <-> In c (comments blog) /\ comment_pk c <> 2) /\
    (forall p c, In c (post_comments p db') <->
                 In c (post_comments p blog) /\ comment_pk c <> 2) /\
    posts db' = posts blog /\ users db' = users blog /\
    categories db' = categories blog.
Proof.
  exact (delete_comment_removes (request_of POST (AuthUser admin)) admin 1 2 blog
           rant eq_refl eq_refl eq_refl eq_refl).
Defined.

(** X16: a POST of a logged-in user with a valid form adds a comment to
    any stored post, whether or not that user can view the post: the
    new comment is on that post, by the requester, with the text of the
    form; it comes last among the comments [post_detail] shows for the
    post, and the comments of the other posts are as before. *)
Theorem add_comment_stores
    (request : HttpRequest) (u : User) (post_id created : Z) (published : bool)
    (db : Store) (post : Post) (d : CommentFormData) :
  user request = AuthUser u ->
  method request = POST ->
  get (fun p => post_pk p =? post_id) (posts db) = Got post ->
  POST_comment_form request = Valid d ->
  exists comment db',
    add_comment request post_id created published db
    = (Answer (Redirect (PostDetailRoute post_id)), db') /\
    comment_post comment = post_id /\
    comment_author comment = user_pk u /\
    comment_text comment = form_comment_text d /\
    ~ In (comment_pk comment) (map comment_pk (comments db)) /\
    comments db' = comments db ++ [comment] /\
    post_comments post db' = post_comments post db ++ [comment] /\
    (forall p, post_pk p <> post_id -> post_comments p db' = post_comments p db) /\
    posts db' = posts db /\ users db' = users db /\
    categories db' = categories db.
Proof.
  intros Hu Hm G Hf.
  destruct (ListingFacts.get_Got_in _ _ _ G) as [Hin Hk].
  apply Z.eqb_eq in Hk. subst post_id.
  unfold add_comment, get_object_or_404.
  rewrite Hu, G, Hm, Hf. cbn [is_POST].
  exists (mkComment (next_pk (map comment_pk (comments db))) (post_pk post)
            (user_pk u) (form_comment_text d) created published).
  eexists. split; [reflexivity | ].
  do 3 (split; [reflexivity | ]).
  split; [apply KeyFacts.next_pk_not_in | ].
  split; [reflexivity | ].
  split; [ | split; [ | repeat split]].
  - unfold post_comments. simpl. rewrite filter_app. simpl.
    rewrite Z.eqb_refl. reflexivity.
  - intros p Hp. unfold post_comments. simpl. rewrite filter_app. simpl.
    apply not_eq_sym, Z.eqb_neq in Hp. rewrite Hp. apply app_nil_r.
Qed.

(** On the example blog bob comments on the draft of alice, which he
    cannot view. *)
Lemma add_comment_stores_witness :
  post_detail (request_of POST (AuthUser bob)) 1 300 blog = Http404 /\
  exists comment db',
    add_comment (request_of POST (AuthUser bob)) 1 300 true blog
    = (Answer (Redirect (PostDetailRoute 1)), db') /\
    comment_post comment = 1 /\
    comment_author comment = 2 /\
    comment_text comment = "edited"%string /\
    post_comments draft db' = [praise; rant; comment].
Proof.
  split; [reflexivity | ].
  destruct (add_comment_stores (request_of POST (AuthUser bob)) bob 1 300 true
              blog draft (mkCommentFormData "edited")
              eq_refl eq_refl eq_refl eq_refl)
    as [comment [db' [H1 [H2 [H3 [H4 [_ [_ [H5 _]]]]]]]]].
  exists comment, db'. auto.
Defined.

Lemma can_view_at_later (post : Post) (viewer : RequestUser) (now later : Z) :
  can_view post viewer now = true -> now <= later ->
  can_view post viewer later = true.
Proof.
  rewrite !VisibilityFacts.can_view_cases, !orb_true_iff, !andb_true_iff,
    !Z.leb_le.
  intros [[[[Hp Hd] Hc] | Ha] | Hs] Hl; auto.
  left; left. repeat split; auto. lia.
Qed.

Lemma post_detail_renders_stored (db : Store) (p : Post)
    (request : HttpRequest) (now : Z) :
  keys_unique db -> In p (posts db) ->
  can_view p (user request) now = true ->
  post_detail request (post_pk p) now db
  = Render "blog/detail.html"
      (DetailContext p (post_comments p db) (UnboundForm None) now).
Proof.
  intros [Np _] Hin V.
  pose proof (DetailFacts.post_detail_cases request (post_pk p) now db) as C.
  rewrite (KeyFacts.get_by_key post_pk (posts db) p Np Hin), V in C. exact C.
Qed.

(** X17: with unique keys, the posts a feed lists can be opened: a post
    of the home feed is rendered by [post_detail] to every viewer from
    the time of the listing on, and a post of the category feed to the
    viewer the feed was made for. *)
Theorem listed_posts_open (db : Store) :
  keys_unique db ->
  (forall request now sequence p,
      assembled_sequence (index request now db) = Some sequence ->
      In p sequence ->
      forall request' later,
        now <= later ->
        post_detail request' (post_pk p) later db
        = Render "blog/detail.html"
            (DetailContext p (post_comments p db) (UnboundForm None) later)) /\
  (forall request category_slug now now_query sequence p,
      assembled_sequence (category_posts request category_slug now now_query db)
      = Some sequence ->
      In p sequence ->
      forall later,
        now <= later ->
        post_detail request (post_pk p) later db
        = Render "blog/detail.html"
            (DetailContext p (post_comments p db) (UnboundForm None) later)).
Proof.
  intros K. split.
  - intros request now sequence p E Hp request' later Hl.
    simpl in E. injection E as <-.
    apply ListingFacts.in_all_posts in Hp.
    destruct Hp as [Hin [Hpub [Hd [c [Hc Hcp]]]]].
    apply post_detail_renders_stored; [exact K | exact Hin | ].
    rewrite VisibilityFacts.can_view_cases.
    unfold category_allows. rewrite Hpub, Hc, Hcp.
    replace (pub_date p <=? later) with true
      by (symmetry; apply Z.leb_le; lia).
    reflexivity.
  - intros request category_slug now now_query sequence p E Hp later Hl.
    unfold category_posts, get_object_or_404 in E.
    destruct (get _ (categories db)) as [| |c]; try discriminate.
    simpl in E. injection E as <-.
    rewrite ListingFacts.visible_posts_filter in Hp.
    apply filter_In in Hp. destruct Hp as [Hp V].
    apply ListingFacts.in_filter_posts in Hp. destruct Hp as [Hin _].
    apply post_detail_renders_stored; [exact K | exact Hin | ].
    apply (can_view_at_later p (user request) now later); [exact V | exact Hl].
Qed.

Lemma listed_posts_open_witness :
  post_detail (request_of GET AnonymousUser) 2 500 blog
  = Render "blog/detail.html"
      (DetailContext story (post_comments story blog) (UnboundForm None) 500).
Proof.
  destruct (listed_posts_open blog KeyFacts.blog_keys_unique) as [H _].
  apply (H (request_of GET (AuthUser bob)) 200 [story] story eq_refl
           (or_introl eq_refl) (request_of GET AnonymousUser) 500).
  discriminate.
Defined.

End RoundTripFacts.

(** ** The category page, exactly *)

Module CategoryFacts.

Import Scenario.

(** X18: on the page of a category the posts listed are exactly the
    stored posts of that category that are published and not dated
    after the query's reading of the clock, and that the loop's decision
    lets pass; so a post that is unpublished is never listed there,
    not to its author and not to staff. *)
Theorem category_feed_exact
    (request : HttpRequest) (category_slug : string) (now now_query : Z)
    (db : Store) (page_category : Category) :
  get (fun c => (slug c =? category_slug)%string && category_is_published c)
    (categories db) = Got page_category ->
  exists sequence,
    category_posts request category_slug now now_query db
    = Render "blog/category.html"
        (CategoryContext page_category
           (paginated_view request sequence PAGE)) /\
    (forall p,
        In p sequence <->
        In p (posts db) /\
        is_published p = true /\
        pub_date p <= now_query /\
        (exists c, category p = Some c /\ category_pk c = category_pk page_category) /\
        can_view p (user request) now = true) /\
    (forall p, In p sequence -> is_published p = true).
Proof.
  intros G. unfold category_posts, get_object_or_404. rewrite G.
  eexists. split; [reflexivity | ].
  assert (forall p,
             In p (visible_posts (all_category_posts page_category now_query db)
                     (user request) now) <->
             In p (posts db) /\
             is_published p = true /\
             pub_date p <= now_query /\
             (exists c, category p = Some c /\
                        category_pk c = category_pk page_category) /\
             can_view p (user request) now = true) as H.
  { intros p.
    rewrite ListingFacts.visible_posts_filter, filter_In.
    unfold all_category_posts. rewrite ListingFacts.in_filter_posts.
    unfold pub_date__lte, category_eq.
    rewrite !andb_true_iff, Z.leb_le.
    change (can_view_post p (user request) now) with (can_view p (user request) now).
    destruct (category p) as [c|].
    - rewrite Z.eqb_eq. split.
      + intros [[Hin [[Hp Hd] Hc]] V]. repeat split; auto. exists c. auto.
      + intros [Hin [Hp [Hd [[c' [E Hc]] V]]]]. injection E as <-. auto.
    - split.
      + intros [[_ [_ Hc]] _]. discriminate.
      + intros [_ [_ [_ [[c' [E _]] _]]]]. discriminate. }
  split; [exact H | ].
  intros p Hp. apply H in Hp. tauto.
Qed.

(** On the example blog the page of the category lists the story to
    alice, and not her draft. *)
Lemma category_feed_exact_witness :
  exists sequence,
    category_posts (request_of GET (AuthUser alice)) "travel" 200 201 blog
    = Render "blog/category.html"
        (CategoryContext travel
           (paginated_view (request_of GET (AuthUser alice)) sequence PAGE)) /\
    (forall p,
        In p sequence <->
        In p (posts blog) /\
        is_published p = true /\
        pub_date p <= 201 /\
        (exists c, category p = Some c /\ category_pk c = category_pk travel) /\
        can_view p (AuthUser alice) 200 = true) /\
    (forall p, In p sequence -> is_published p = true).
Proof.
  exact (category_feed_exact (request_of GET (AuthUser alice)) "travel" 200 201
           blog travel eq_refl).
Defined.

Lemma same_key_same_row {A : Type} (key : A -> Z) (l : list A) (a b : A) :
  NoDup (map key l) -> In a l -> In b l -> key a = key b -> a = b.
Proof.
  intros N Ha Hb E.
  pose proof (KeyFacts.filter_key_unique key l a N Ha) as Fa.
  pose proof (KeyFacts.filter_key_unique key l b N Hb) as Fb.
  rewrite E in Fa. rewrite Fa in Fb. injection Fb as ->. reflexivity.
Qed.

Lemma filter_all {A : Type} (f : A -> bool) (l : list A) :
  (forall x, In x l -> f x = true) -> filter f l = l.
Proof.
  induction l as [|x l IH]; simpl; intros H; [reflexivity | ].
  rewrite (H x (or_introl eq_refl)). f_equal. apply IH.
  intros y Hy. apply H. right. exact Hy.
Qed.

(** X19: when the category each post carries is the row of the category
    table, and the loop's reading of the clock is not before the
    query's, the loop of [category_posts] removes nothing: every post
    the query found passes the decision on the publication gate alone,
    for every viewer. *)
Theorem category_loop_keeps_all
    (db : Store) (request : HttpRequest) (category_slug : string)
    (now now_query : Z) (page_category : Category) :
  categories_consistent db ->
  now_query <= now ->
  get (fun c => (slug c =? category_slug)%string && category_is_published c)
    (categories db) = Got page_category ->
  visible_posts (all_category_posts page_category now_query db)
    (user request) now
  = all_category_posts page_category now_query db /\
  assembled_sequence (category_posts request category_slug now now_query db)
  = Some (all_category_posts page_category now_query db).
Proof.
  intros [Nc Hc] Hl G.
  assert (visible_posts (all_category_posts page_category now_query db)
            (user request) now
          = all_category_posts page_category now_query db) as V.
  { rewrite ListingFacts.visible_posts_filter. apply filter_all.
    intros p Hp. unfold all_category_posts in Hp.
    apply ListingFacts.in_filter_posts in Hp. destruct Hp as [Hin Hq].
    apply andb_true_iff in Hq. destruct Hq as [Hq Hcat].
    apply andb_true_iff in Hq. destruct Hq as [Hpub Hd].
    unfold pub_date__lte in Hd. apply Z.leb_le in Hd.
    unfold category_eq in Hcat.
    destruct (category p) as [c|] eqn:E; [ | discriminate].
    apply Z.eqb_eq in Hcat.
    apply ListingFacts.get_Got_in in G. destruct G as [Gin Gc].
    apply andb_true_iff in Gc. destruct Gc as [_ Gp].
    assert (c = page_category) as ->
      by (apply (same_key_same_row category_pk (categories db)); eauto).
    unfold can_view_post, category_allows. rewrite Hpub, E, Gp.
    replace (pub_date p <=? now) with true by (symmetry; apply Z.leb_le; lia).
    reflexivity. }
  split; [exact V | ].
  unfold category_posts, get_object_or_404. rewrite G. simpl.
  rewrite V. reflexivity.
Qed.

Lemma blog_categories_consistent : categories_consistent blog.
Proof.
  split.
  - simpl. repeat constructor; simpl; intuition discriminate.
  - intros p c [<- | [<- | [<- | []]]]; simpl; intros E;
      try discriminate; injection E as <-; left; reflexivity.
Qed.

Lemma category_loop_keeps_all_witness :
  visible_posts (all_category_posts travel 200 blog) AnonymousUser 200
  = all_category_posts travel 200 blog /\
  assembled_sequence
    (category_posts (request_of GET AnonymousUser) "travel" 200 200 blog)
  = Some (all_category_posts travel 200 blog).
Proof.
  apply (category_loop_keeps_all blog (request_of GET AnonymousUser) "travel"
           200 200 travel blog_categories_consistent).
  - discriminate.
  - reflexivity.
Defined.

End CategoryFacts.

(** ** The profile page *)

Module ProfileFacts.

(** What a page shows is in the listing. *)
Lemma in_page_in_listing {A : Type} (request : HttpRequest) (queryset : list A)
    (x : A) :
  In x (object_list (paginated_view request queryset PAGE)) -> In x queryset.
Proof.
  unfold paginated_view.
  pose proof (PaginationFacts.get_page_slice queryset PAGE (GET_page request)
                PaginationFacts.PAGE_pos) as Hs.
  cbv zeta in Hs. rewrite Hs. intros H.
  eapply OrderFacts.subsequence_in; [ | exact H].
  eapply PaginationFacts.subsequence_trans;
    [apply PaginationFacts.subsequence_firstn
    | apply PaginationFacts.subsequence_skipn].
Qed.

(** X20: [profile_view] answers not-found when no stored user has the
    name; a page it renders is the profile of a stored user of that
    name: the listing it paginates holds exactly the stored posts of that
    user, and the page it shows holds posts of that user only. *)
Theorem profile_view_outcomes :
  (forall request name db,
      (forall x, In x (users db) -> username x <> name) ->
      profile_view request name db = Http404) /\
  (forall request name db template context,
      profile_view request name db = Render template context ->
      exists user_obj page_obj,
        In user_obj (users db) /\ username user_obj = name /\
        template = "blog/profile.html"%string /\
        context = ProfileContext user_obj page_obj /\
        (forall p, In p (paginator_object_list page_obj) <->
                   In p (posts db) /\ author p = user_pk user_obj) /\
        (forall p, In p (object_list page_obj) ->
                   In p (posts db) /\ author p = user_pk user_obj)).
Proof.
  split.
  - intros request name db H.
    assert (get (fun u => (username u =? name)%string) (users db) = DoesNotExist)
      as G.
    { apply ListingFacts.get_DoesNotExist. intros x Hx.
      apply String.eqb_neq, H, Hx. }
    unfold profile_view, get_object_or_404. rewrite G. reflexivity.
  - intros request name db template context H.
    unfold profile_view, get_object_or_404 in H.
    destruct (get _ (users db)) as [| |user_obj] eqn:G; try discriminate.
    injection H as <- <-.
    apply ListingFacts.get_Got_in in G. destruct G as [Hin Hn].
    apply String.eqb_eq in Hn.
    assert (forall p, In p (profile_posts user_obj db) <->
                      In p (posts db) /\ author p = user_pk user_obj) as L.
    { intros p. unfold profile_posts, author_eq.
      rewrite filter_In, Z.eqb_eq. reflexivity. }
    exists user_obj. eexists.
    split; [exact Hin | split; [exact Hn | ]].
    split; [reflexivity | split; [reflexivity | split]].
    + exact L.
    + intros p Hp. apply L. eapply in_page_in_listing. exact Hp.
Qed.

Example profile_view_on_blog :
  profile_view (Scenario.request_of GET AnonymousUser) "carol" Scenario.blog
  = Http404 /\
  assembled_sequence
    (profile_view (Scenario.request_of GET AnonymousUser) "alice" Scenario.blog)
  = Some [Scenario.draft; Scenario.story].
Proof. split; reflexivity. Qed.

End ProfileFacts.
